(** * Work items over HTTP: the router of [routes/work.route.js] and the
      entity of [models/work.model.js]

    The five handlers of the router are embedded as programs of a small
    state-and-exception monad.  The state holds the collection behind the
    [Work] model, the response object [res] of the request being served and
    the sequence of effects the handler performed.  An exception keeps the
    state reached when it was thrown, as a JavaScript [throw] does.  Around
    the handlers stand the two things they rely on: the identifier that the
    persistence layer assigns to a new document, and the JSON body parser
    that [index.js] mounts in front of the router. *)

From Stdlib Require Import String Ascii List Bool Arith NArith Lia.
Import ListNotations.
Open Scope string_scope.

(** ** Values *)

(** A field of a request body, or of a stored document: absent
    ([undefined]), [null], or a string.  Other JSON values would go through
    the string cast of the schema type and are outside this model. *)
Inductive jsval : Type :=
| JUndefined
| JNull
| JString (s : string).

Definition jsval_eq_dec (a b : jsval) : {a = b} + {a <> b}.
Proof. decide equality. apply string_dec. Defined.

(** ** Identifiers

    The backing store names a document by an ObjectId, written as 24
    hexadecimal digits.  [req.params.id] is an arbitrary string; the
    query casts it, and the cast fails on anything else. *)
Module ObjectId.

Definition t : Type := string.

Definition is_hex (c : ascii) : bool :=
  let n := nat_of_ascii c in
  (((48 <=? n) && (n <=? 57)) || ((97 <=? n) && (n <=? 102))
   || ((65 <=? n) && (n <=? 70)))%nat.

Definition lower (c : ascii) : ascii :=
  let n := nat_of_ascii c in
  if ((65 <=? n) && (n <=? 70))%nat then ascii_of_nat (n + 32) else c.

Fixpoint all_hex (s : string) : bool :=
  match s with
  | EmptyString => true
  | String c s' => is_hex c && all_hex s'
  end.

Fixpoint lowercase (s : string) : string :=
  match s with
  | EmptyString => EmptyString
  | String c s' => String (lower c) (lowercase s')
  end.

Definition isValid (s : string) : bool :=
  (String.length s =? 24)%nat && all_hex s.

(** The cast of a path parameter to an identifier; [None] is the
    library's CastError.  Upper and lower case digits name the same
    identifier, whose string form is in lower case. *)
Definition cast (s : string) : option t :=
  if isValid s then Some (lowercase s) else None.

End ObjectId.

(** ** The entity: [workSchema] and the [Work] model *)

(** A document of the collection.  [title] and [description] are the two
    paths of [workSchema]; [_id] and the version key [__v] are the ones the
    persistence layer adds. *)
Record Work : Type := mkWork {
  _id : ObjectId.t;
  title : jsval;
  description : jsval;
  __v : nat
}.

Definition Work_eq_dec (a b : Work) : {a = b} + {a <> b}.
Proof.
  decide equality.
  - apply Nat.eq_dec.
  - apply jsval_eq_dec.
  - apply jsval_eq_dec.
  - apply string_dec.
Defined.

(** [type: String, required: true].  The required validator of a string
    path accepts a string of positive length and nothing else: it fails on
    [undefined], on [null] and on the empty string. *)
Definition checkRequired (v : jsval) : bool :=
  match v with
  | JString s => negb (String.eqb s EmptyString)
  | JNull | JUndefined => false
  end.

(** The paths of [workSchema] that fail validation on a document, in
    schema order. *)
Definition invalid_paths (w : Work) : list string :=
  (if checkRequired (title w) then [] else ["title"])
  ++ (if checkRequired (description w) then [] else ["description"]).

Definition valid_work (w : Work) : bool :=
  checkRequired (title w) && checkRequired (description w).

(** ** Requests, responses, errors *)

(** The parts of [req] the handlers read: [req.params.id] and the two
    fields they destructure from [req.body]. *)
Record Request : Type := mkRequest {
  params_id : string;
  body_title : jsval;
  body_description : jsval
}.

(** The values passed to [res.json]. *)
Inductive Json : Type :=
| JWorks (works : list Work)
| JWork (work : option Work)
| JMessage (message : string)
| JCreated (message : string) (newWork : Work)
| JDeleted (message : string) (work : option Work).

Inductive Error : Type :=
| CastError
| ValidationError (paths : list string)
| DuplicateKey
| TypeError
| ERR_HTTP_HEADERS_SENT.

(** What a handler does, in order: the calls on the model and the
    operations on [res] and on the console. *)
Inductive Event : Type :=
| EFind
| EFindById (id : string)
| ESave (w : Work)
| EFindByIdAndDelete (id : string)
| EFindByIdAndUpdate (id : string) (t d : jsval)
| EStatus (code : nat)
| ESent (code : nat) (body : Json)
| ERefused (code : nat) (body : Json)
| EConsoleLog (e : Error).

(** [res]: the status code set so far and the response on the wire, if
    any.  A fresh response object has status 200 and nothing sent. *)
Record Res : Type := mkRes {
  statusCode : nat;
  sent : option (nat * Json)
}.

Record World : Type := mkWorld {
  db : list Work;
  res : Res;
  trace : list Event
}.

(** ** The handler monad *)

Inductive Result (A : Type) : Type :=
| Ok (a : A)
| Throw (e : Error).
Arguments Ok {A} a.
Arguments Throw {A} e.

Definition M (A : Type) : Type := World -> Result A * World.

Definition ret {A} (a : A) : M A := fun w => (Ok a, w).

Definition bind {A B} (c : M A) (k : A -> M B) : M B :=
  fun w =>
    match c w with
    | (Ok a, w') => k a w'
    | (Throw e, w') => (Throw e, w')
    end.

Definition throw {A} (e : Error) : M A := fun w => (Throw e, w).

Definition try_catch {A} (c : M A) (h : Error -> M A) : M A :=
  fun w =>
    match c w with
    | (Ok a, w') => (Ok a, w')
    | (Throw e, w') => h e w'
    end.

Declare Scope handler_scope.
Delimit Scope handler_scope with handler.
Notation "x <- c ;; k" := (bind c (fun x => k))
  (at level 61, c at next level, right associativity) : handler_scope.
Notation "c ;; k" := (bind c (fun _ => k))
  (at level 61, right associativity) : handler_scope.
Notation "'try' c 'catch' e '=>' h" := (try_catch c (fun e => h))
  (at level 62, e name, c at level 61, h at level 61) : handler_scope.
Open Scope handler_scope.

Definition emit (ev : Event) : M unit :=
  fun w => (Ok tt, mkWorld (db w) (res w) (trace w ++ [ev])).

Definition get_db : M (list Work) := fun w => (Ok (db w), w).

Definition set_db (l : list Work) : M unit :=
  fun w => (Ok tt, mkWorld l (res w) (trace w)).

(** ** The collection *)

Definition has_id (oid : ObjectId.t) (w : Work) : bool :=
  String.eqb (_id w) oid.

Definition lookup (oid : ObjectId.t) (l : list Work) : option Work :=
  find (has_id oid) l.

(** Removes the first document named [oid]. *)
Fixpoint remove_id (oid : ObjectId.t) (l : list Work) : list Work :=
  match l with
  | [] => []
  | w :: l' => if has_id oid w then l' else w :: remove_id oid l'
  end.

(** A field of an update document replaces the stored one, [null] and the
    empty string included; a field that is [undefined] is left out of the
    update. *)
Definition set_field (new old : jsval) : jsval :=
  match new with
  | JUndefined => old
  | _ => new
  end.

Definition apply_update (t d : jsval) (w : Work) : Work :=
  mkWork (_id w) (set_field t (title w)) (set_field d (description w)) (__v w).

(** Updates the first document named [oid], in place. *)
Fixpoint update_id (oid : ObjectId.t) (t d : jsval) (l : list Work) : list Work :=
  match l with
  | [] => []
  | w :: l' =>
      if has_id oid w then apply_update t d w :: l'
      else w :: update_id oid t d l'
  end.

(** ** The operations of the [Work] model

    These are the calls the handlers make on the model that
    [mongoose.model("Work", workSchema)] returns.  Each one records itself in
    the trace before it runs. *)

(** [Work.find({})]: every document, in the order of the collection. *)
Definition Work_find : M (list Work) :=
  emit EFind ;;
  get_db.

(** [Work.findById(id)]: the document named [id], or [null]; rejects with a
    CastError when [id] does not cast to an identifier. *)
Definition Work_findById (id : string) : M (option Work) :=
  emit (EFindById id) ;;
  match ObjectId.cast id with
  | None => throw CastError
  | Some oid => l <- get_db ;; ret (lookup oid l)
  end.

(** [new Work({ title, description })].  The identifier [oid] is the one the
    driver generates for the new document. *)
Definition new_Work (oid : ObjectId.t) (t d : jsval) : Work :=
  mkWork oid t d 0.

(** [doc.save()].  The document is validated against [workSchema] first
    (the pre-save validation, which covers the required paths whether they
    were modified or not) and the promise rejects with a ValidationError
    naming the failing paths.  A new document ([isNew]) is then inserted at
    the end of the collection, which refuses a second document with the same
    [_id]; a document read from the collection and not modified since has
    nothing to write. *)
Definition save (isNew : bool) (w : Work) : M unit :=
  emit (ESave w) ;;
  if valid_work w then
    if isNew then
      l <- get_db ;;
      match lookup (_id w) l with
      | Some _ => throw DuplicateKey
      | None => set_db (l ++ [w])
      end
    else ret tt
  else throw (ValidationError (invalid_paths w)).

(** [Work.findByIdAndDelete(id)]: removes the document named [id] and
    resolves to it, or to [null] when there is none. *)
Definition Work_findByIdAndDelete (id : string) : M (option Work) :=
  emit (EFindByIdAndDelete id) ;;
  match ObjectId.cast id with
  | None => throw CastError
  | Some oid =>
      l <- get_db ;;
      set_db (remove_id oid l) ;;
      ret (lookup oid l)
  end.

(** [Work.findByIdAndUpdate(id, { title, description })].  The handler
    passes no options, so the defaults apply: the given fields are set on
    the document named [id] without running the schema validators, and the
    promise resolves to the document as it was before the update, or to
    [null] when there is none. *)
Definition Work_findByIdAndUpdate (id : string) (t d : jsval) : M (option Work) :=
  emit (EFindByIdAndUpdate id t d) ;;
  match ObjectId.cast id with
  | None => throw CastError
  | Some oid =>
      l <- get_db ;;
      set_db (update_id oid t d l) ;;
      ret (lookup oid l)
  end.

(** ** The response object and the console *)

(** [res.status(code)] *)
Definition res_status (code : nat) : M unit :=
  fun w => (Ok tt, mkWorld (db w) (mkRes code (sent (res w))) (trace w ++ [EStatus code])).

(** [res.json(body)]: sends the response with the status set so far; once a
    response has been sent, setting its headers again throws. *)
Definition res_json (body : Json) : M unit :=
  fun w =>
    match sent (res w) with
    | None =>
        (Ok tt, mkWorld (db w)
                        (mkRes (statusCode (res w)) (Some (statusCode (res w), body)))
                        (trace w ++ [ESent (statusCode (res w)) body]))
    | Some _ =>
        (Throw ERR_HTTP_HEADERS_SENT,
         mkWorld (db w) (res w) (trace w ++ [ERefused (statusCode (res w)) body]))
    end.

(** [console.log(error)] *)
Definition console_log (e : Error) : M unit := emit (EConsoleLog e).

(** ** The handlers of the router *)

(** [router.get("/works", ...)] *)
Definition get_works (req : Request) : M unit :=
  works <- Work_find ;;
  res_status 200 ;; res_json (JWorks works).

(** [router.get("/works/:id", ...)] *)
Definition get_work (req : Request) : M unit :=
  work <- Work_findById (params_id req) ;;
  res_status 200 ;; res_json (JWork work).

(** [router.post("/works", ...)] *)
Definition post_work (oid : ObjectId.t) (req : Request) : M unit :=
  try
    (let title := body_title req in
     let description := body_description req in
     let newWork := new_Work oid title description in
     save true newWork ;;
     res_status 200 ;; res_json (JCreated "new work created" newWork))
  catch error =>
    (console_log error ;;
     res_status 500 ;; res_json (JMessage "unable to create new work")).

(** [router.delete("/works/:id", ...)].  The [if (!work)] block sends the
    404 and falls through to the statements after it. *)
Definition delete_work (req : Request) : M unit :=
  try
    (work <- Work_findById (params_id req) ;;
     match work with
     | None => res_status 404 ;; res_json (JMessage "work not found")
     | Some _ => ret tt
     end ;;
     Work_findByIdAndDelete (params_id req) ;;
     res_status 200 ;; res_json (JDeleted "work deleted" work))
  catch error =>
    (console_log error ;;
     res_status 500 ;; res_json (JMessage "unable to delete work")).

(** [router.put("/works/:id", ...)].  The [if (!work)] block returns. *)
Definition put_work (req : Request) : M unit :=
  try
    (work <- Work_findById (params_id req) ;;
     match work with
     | None => res_status 404 ;; res_json (JMessage "no book found")
     | Some _ =>
         let title := body_title req in
         let description := body_description req in
         updateWork <- Work_findByIdAndUpdate (params_id req) title description ;;
         match updateWork with
         | None => throw TypeError
         | Some u => save false u
         end ;;
         res_status 200 ;; res_json (JWork updateWork)
     end)
  catch error =>
    (console_log error ;;
     res_status 500 ;; res_json (JMessage "unable to update work")).

(** ** Serving a request *)

Inductive Endpoint : Type :=
| GetWorks
| GetWork
| PostWork (oid : ObjectId.t)
| DeleteWork
| PutWork.

Definition route (e : Endpoint) : Request -> M unit :=
  match e with
  | GetWorks => get_works
  | GetWork => get_work
  | PostWork oid => post_work oid
  | DeleteWork => delete_work
  | PutWork => put_work
  end.

(** What serving a request leaves behind: the response the handler sent,
    if any; the error its promise rejected with, if any (nothing in the
    router catches it); the collection; and the effects in order. *)
Record Outcome : Type := mkOutcome {
  response : option (nat * Json);
  rejection : option Error;
  store : list Work;
  events : list Event
}.

Definition serve (h : M unit) (l : list Work) : Outcome :=
  let '(r, w) := h (mkWorld l (mkRes 200 None) []) in
  mkOutcome (sent (res w))
            (match r with Ok _ => None | Throw e => Some e end)
            (db w)
            (trace w).

Definition handle (e : Endpoint) (req : Request) (l : list Work) : Outcome :=
  serve (route e req) l.

Definition status_of (o : Outcome) : option nat :=
  option_map fst (response o).

(** The collection after a sequence of requests. *)
Fixpoint run (rs : list (Endpoint * Request)) (l : list Work) : list Work :=
  match rs with
  | [] => l
  | (e, req) :: rs' => run rs' (store (handle e req l))
  end.

(** The errors a [catch] block logged while the request was served. *)
Fixpoint logged (evs : list Event) : list Error :=
  match evs with
  | [] => []
  | EConsoleLog e :: evs' => e :: logged evs'
  | _ :: evs' => logged evs'
  end.

(** The collection after a sequence of PUT requests. *)
Definition run_puts (reqs : list Request) (l : list Work) : list Work :=
  run (map (fun req => (PutWork, req)) reqs) l.

(** PUT and DELETE address a document; this holds when the id is well
    formed and no stored document carries it, the case their [if (!work)]
    tests for. *)
Definition target_missing (e : Endpoint) (req : Request) (l : list Work) : bool :=
  match e with
  | PutWork | DeleteWork =>
      match ObjectId.cast (params_id req) with
      | Some oid => match lookup oid l with Some _ => false | None => true end
      | None => false
      end
  | GetWorks | GetWork | PostWork _ => false
  end.

(** A request succeeds when the document it addresses is there and its
    handler runs to the end without an error being thrown: none caught and
    logged, none escaping. *)
Definition succeeds (e : Endpoint) (req : Request) (l : list Work) : bool :=
  let o := handle e req l in
  negb (target_missing e req l)
  && match logged (events o) with [] => true | _ :: _ => false end
  && match rejection o with None => true | Some _ => false end.

(** ** The identifier of a new document *)

Definition hex_digit (d : N) : ascii :=
  nth (N.to_nat d) (list_ascii_of_string "0123456789abcdef") "0"%char.

(** The [k] lowest hexadecimal digits of [n], highest first. *)
Fixpoint hex (k : nat) (n : N) : string :=
  match k with
  | O => EmptyString
  | S k' => String (hex_digit ((n / 16 ^ N.of_nat k') mod 16)) (hex k' n)
  end.

(** The number of digits of an identifier: the 24 of an ObjectId, and as
    many as the value needs once 24 no longer suffice. *)
Definition width (n : N) : nat :=
  Nat.max 24 (N.to_nat ((N.size n + 3) / 4)).

(** Modelled from the spec: the identifier that the persistence layer
    assigns when [new Work(...)] builds a document; the driver that produces
    it is not part of the repository.  The spec has it as an "opaque unique
    identifier, assigned by the persistence layer on creation".  The model is
    the value of a counter that the process keeps, written in hexadecimal on
    the digits of an identifier. *)
Definition generate (n : N) : ObjectId.t := hex (width n) n.

(** The running process: the collection, and the counter from which the
    next identifier is taken. *)
Record Server : Type := mkServer {
  collection : list Work;
  counter : N
}.

(** A process that starts on an empty collection, its counter anywhere. *)
Definition boot (n0 : N) : Server := mkServer [] n0.

(** A request as a client makes it: a POST does not choose the identifier
    of the document it creates. *)
Inductive Call : Type :=
| CallGetWorks
| CallGetWork
| CallPost
| CallDelete
| CallPut.

Definition endpoint_of (c : Call) (s : Server) : Endpoint :=
  match c with
  | CallGetWorks => GetWorks
  | CallGetWork => GetWork
  | CallPost => PostWork (generate (counter s))
  | CallDelete => DeleteWork
  | CallPut => PutWork
  end.

(** Serving one request.  The POST handler builds its document, and so
    takes an identifier, each time it runs. *)
Definition call (c : Call) (req : Request) (s : Server) : Outcome * Server :=
  let o := handle (endpoint_of c s) req (collection s) in
  (o, mkServer (store o)
               (match c with
                | CallPost => N.succ (counter s)
                | _ => counter s
                end)).

Fixpoint calls (cs : list (Call * Request)) (s : Server) : Server :=
  match cs with
  | [] => s
  | (c, req) :: cs' => calls cs' (snd (call c req s))
  end.

(** ** The application: [src/index.js]

    [app.use(express.json())] puts the JSON body parser in front of the
    router that [app.use("/api", workRoute)] mounts. *)

(** The text of a body sent as JSON: an object with the two fields the
    handlers read, or text that does not parse. *)
Inductive BodyText : Type :=
| ObjectText (title description : jsval)
| MalformedText.

(** The body of a request as it arrives: its length in bytes and its
    text. *)
Record RawBody : Type := mkRawBody {
  body_bytes : N;
  body_text : BodyText
}.

(** The parser is mounted with no options, so its limit is the default
    100kb. *)
Definition json_limit : N := 102400.

(** [express.json()]: a body over the limit is refused with status 413
    before it is read, text that does not parse is refused with status 400,
    and an object becomes [req.body]. *)
Definition express_json (b : RawBody) : nat + (jsval * jsval) :=
  if (json_limit <? body_bytes b)%N then inl 413
  else
    match body_text b with
    | MalformedText => inl 400
    | ObjectText t d => inr (t, d)
    end.

(** What comes of a request to the application: the outcome of the handler
    it was routed to, or the status with which Express answers when the
    parser has refused the body, no handler being called. *)
Inductive Answer : Type :=
| Routed (o : Outcome)
| Refused (status : nat).

Definition app (e : Endpoint) (id : string) (b : RawBody) (l : list Work) : Answer :=
  match express_json b with
  | inl status => Refused status
  | inr (t, d) => Routed (handle e (mkRequest id t d) l)
  end.

(** The status the client observes. *)
Definition observed (a : Answer) : option nat :=
  match a with
  | Routed o => status_of o
  | Refused status => Some status
  end.

(** ** Sample data *)

Definition id_a : ObjectId.t := "507f1f77bcf86cd799439011".
Definition id_b : ObjectId.t := "507f191e810c19729de860ea".

Definition work_a : Work :=
  mkWork id_a (JString "Work 1") (JString "Work Description") 0.

(** A request with no body fields, and one with no path parameter. *)
Definition by_id (id : string) : Request := mkRequest id JUndefined JUndefined.

Definition with_body (t d : jsval) : Request := mkRequest EmptyString t d.

(** ** Facts about the collection *)

Ltac run_handler :=
  unfold handle, serve, route, get_works, get_work, post_work, delete_work,
    put_work, Work_find, Work_findById, Work_findByIdAndDelete,
    Work_findByIdAndUpdate, save, new_Work, console_log, res_status,
    res_json, emit, get_db, set_db, try_catch, bind, ret, throw, status_of;
  simpl.

Lemma has_id_true (oid : ObjectId.t) (w : Work) :
  has_id oid w = true <-> _id w = oid.
Proof. unfold has_id. apply String.eqb_eq. Qed.

Lemma lookup_Some_id (oid : ObjectId.t) (l : list Work) (w : Work) :
  lookup oid l = Some w -> _id w = oid /\ In w l.
Proof.
  unfold lookup. intros H. apply find_some in H. destruct H as [Hin Hid].
  split; [now apply has_id_true | exact Hin].
Qed.

Lemma lookup_None_iff (oid : ObjectId.t) (l : list Work) :
  lookup oid l = None <-> ~ In oid (map _id l).
Proof.
  unfold lookup. induction l as [|w l IH]; simpl.
  - tauto.
  - destruct (has_id oid w) eqn:E.
    + apply has_id_true in E. split; [discriminate | intros H; exfalso; tauto].
    + assert (_id w <> oid) by (intros H; apply has_id_true in H; congruence).
      rewrite IH. tauto.
Qed.

Lemma remove_id_absent (oid : ObjectId.t) (l : list Work) :
  lookup oid l = None -> remove_id oid l = l.
Proof.
  unfold lookup. induction l as [|w l IH]; simpl; [reflexivity|].
  destruct (has_id oid w); [discriminate|]. intros H. now rewrite IH.
Qed.

Lemma remove_id_ids (oid : ObjectId.t) (l : list Work) :
  forall i, In i (map _id (remove_id oid l)) -> In i (map _id l).
Proof.
  induction l as [|w l IH]; simpl; [tauto|].
  destruct (has_id oid w); simpl; intuition.
Qed.

Lemma remove_id_NoDup (oid : ObjectId.t) (l : list Work) :
  NoDup (map _id l) -> NoDup (map _id (remove_id oid l)).
Proof.
  induction l as [|w l IH]; simpl; intros H; [exact H|].
  inversion H as [|? ? Hn Hd]; subst.
  destruct (has_id oid w); simpl; [exact Hd|].
  constructor; [|now apply IH].
  intros Hin. apply Hn. now apply remove_id_ids in Hin.
Qed.

(** With identifiers unique, a removed document is gone. *)
Lemma lookup_remove_id (oid : ObjectId.t) (l : list Work) :
  NoDup (map _id l) -> lookup oid (remove_id oid l) = None.
Proof.
  induction l as [|w l IH]; simpl; intros H; [reflexivity|].
  inversion H as [|? ? Hn Hd]; subst.
  destruct (has_id oid w) eqn:E.
  - apply has_id_true in E. subst oid. now apply lookup_None_iff.
  - unfold lookup. simpl. rewrite E. now apply IH.
Qed.

Lemma update_id_ids (oid : ObjectId.t) (t d : jsval) (l : list Work) :
  map _id (update_id oid t d l) = map _id l.
Proof.
  induction l as [|w l IH]; simpl; [reflexivity|].
  destruct (has_id oid w); simpl; [reflexivity | now rewrite IH].
Qed.

Lemma lookup_update_id (oid : ObjectId.t) (t d : jsval) (l : list Work) (w : Work) :
  lookup oid l = Some w ->
  lookup oid (update_id oid t d l) = Some (apply_update t d w).
Proof.
  unfold lookup. induction l as [|x l IH]; simpl; [discriminate|].
  destruct (has_id oid x) eqn:E; simpl.
  - intros H. injection H as ->. unfold has_id in *. simpl. now rewrite E.
  - rewrite E. exact IH.
Qed.

Lemma lookup_app_new (oid : ObjectId.t) (l : list Work) (w : Work) :
  lookup oid l = None -> _id w = oid -> lookup oid (l ++ [w]) = Some w.
Proof.
  unfold lookup. induction l as [|x l IH]; simpl; intros H Hid.
  - apply has_id_true in Hid. now rewrite Hid.
  - destruct (has_id oid x); [discriminate | now apply IH].
Qed.

Lemma count_occ_absent (l : list Work) (w : Work) :
  lookup (_id w) l = None -> count_occ Work_eq_dec l w = 0.
Proof.
  intros H. apply count_occ_not_In. intros Hin.
  apply lookup_None_iff in H. apply H. now apply in_map.
Qed.

(** ** The effect of each handler on the collection *)

Lemma get_works_store (req : Request) (l : list Work) :
  store (handle GetWorks req l) = l.
Proof. reflexivity. Qed.

Lemma get_work_store (req : Request) (l : list Work) :
  store (handle GetWork req l) = l.
Proof. run_handler. destruct (ObjectId.cast (params_id req)); reflexivity. Qed.

Lemma post_work_store (oid : ObjectId.t) (req : Request) (l : list Work) :
  store (handle (PostWork oid) req l) =
  let w := new_Work oid (body_title req) (body_description req) in
  if valid_work w then
    match lookup oid l with Some _ => l | None => (l ++ [w])%list end
  else l.
Proof.
  run_handler. unfold valid_work. simpl.
  destruct (checkRequired (body_title req) && checkRequired (body_description req));
    simpl; [|reflexivity].
  destruct (lookup oid l); reflexivity.
Qed.

Lemma delete_work_store (req : Request) (l : list Work) :
  store (handle DeleteWork req l) =
  match ObjectId.cast (params_id req) with
  | Some oid => remove_id oid l
  | None => l
  end.
Proof.
  run_handler. destruct (ObjectId.cast (params_id req)) as [oid|]; simpl;
    [|reflexivity].
  destruct (lookup oid l); reflexivity.
Qed.

Lemma put_work_store (req : Request) (l : list Work) :
  store (handle PutWork req l) =
  match ObjectId.cast (params_id req) with
  | Some oid =>
      match lookup oid l with
      | Some _ => update_id oid (body_title req) (body_description req) l
      | None => l
      end
  | None => l
  end.
Proof.
  run_handler. destruct (ObjectId.cast (params_id req)) as [oid|]; simpl;
    [|reflexivity].
  destruct (lookup oid l) as [w|] eqn:E; simpl; [|reflexivity].
  rewrite E. simpl. destruct (valid_work w); reflexivity.
Qed.

(** Identifiers stay unique: the collection refuses a second document with
    an [_id] it already holds, and no handler writes an [_id]. *)
Lemma handle_NoDup (e : Endpoint) (req : Request) (l : list Work) :
  NoDup (map _id l) -> NoDup (map _id (store (handle e req l))).
Proof.
  intros H. destruct e.
  - now rewrite get_works_store.
  - now rewrite get_work_store.
  - rewrite post_work_store. cbv zeta.
    destruct (valid_work _); [|exact H].
    destruct (lookup oid l) eqn:E; [exact H|].
    rewrite map_app. simpl.
    apply NoDup_app; [exact H | constructor; [intros [] | constructor] |].
    intros a Ha [<-|[]]. now apply lookup_None_iff in E.
  - rewrite delete_work_store.
    destruct (ObjectId.cast (params_id req)); [now apply remove_id_NoDup | exact H].
  - rewrite put_work_store.
    destruct (ObjectId.cast (params_id req)) as [oid|]; [|exact H].
    destruct (lookup oid l); [now rewrite update_id_ids | exact H].
Qed.

Lemma run_NoDup (rs : list (Endpoint * Request)) :
  forall l, NoDup (map _id l) -> NoDup (map _id (run rs l)).
Proof.
  induction rs as [|[e req] rs IH]; simpl; intros l H; [exact H|].
  apply IH. now apply handle_NoDup.
Qed.

(** ** GET /works/:id *)

Lemma get_work_response (l : list Work) (req : Request) (oid : ObjectId.t) :
  ObjectId.cast (params_id req) = Some oid ->
  response (handle GetWork req l) = Some (200, JWork (lookup oid l)).
Proof. intros Hc. run_handler. now rewrite Hc. Qed.

(** C1. For a syntactically valid id, GET /works/:id answers 200: with a
    [null] body when no stored document carries the id (not a 404), and with
    the document when one does.  The collection is left as it was. *)
Theorem get_work_valid_id (l : list Work) (req : Request) (oid : ObjectId.t) :
  ObjectId.cast (params_id req) = Some oid ->
  let o := handle GetWork req l in
  (lookup oid l = None -> response o = Some (200, JWork None)) /\
  (forall w, lookup oid l = Some w -> response o = Some (200, JWork (Some w))) /\
  rejection o = None /\
  store o = l.
Proof.
  intros Hc. cbv zeta. rewrite (get_work_response l req oid Hc), get_work_store.
  repeat split.
  - intros H. now rewrite H.
  - intros w H. now rewrite H.
  - run_handler. now rewrite Hc.
Qed.

Lemma get_work_valid_id_witness :
  response (handle GetWork (by_id id_b) [work_a]) = Some (200, JWork None) /\
  response (handle GetWork (by_id id_a) [work_a]) = Some (200, JWork (Some work_a)).
Proof.
  split.
  - destruct (get_work_valid_id [work_a] (by_id id_b) id_b eq_refl) as (H & _).
    apply H. reflexivity.
  - destruct (get_work_valid_id [work_a] (by_id id_a) id_a eq_refl) as (_ & H & _).
    apply H. reflexivity.
Defined.

(** C9. For an id that is not syntactically valid, the lookup of
    GET /works/:id fails with a CastError (the malformed-identifier
    condition).  The handler has no try/catch: its promise rejects with that
    error, nothing is logged and no response, in particular no 500, is sent
    by the handler. *)
Theorem get_work_malformed_id (l : list Work) (req : Request) :
  ObjectId.cast (params_id req) = None ->
  let o := handle GetWork req l in
  rejection o = Some CastError /\
  response o = None /\
  events o = [EFindById (params_id req)] /\
  store o = l.
Proof.
  intros Hc. run_handler. rewrite Hc. simpl. repeat split.
Qed.

Lemma get_work_malformed_id_witness :
  rejection (handle GetWork (by_id "abc") [work_a]) = Some CastError /\
  response (handle GetWork (by_id "abc") [work_a]) = None.
Proof.
  destruct (get_work_malformed_id [work_a] (by_id "abc") eq_refl) as (H1 & H2 & _).
  split; [exact H1 | exact H2].
Defined.

(** ** DELETE /works/:id *)

(** C10. DELETE /works/:id sends a 404 exactly when the id is well formed
    and no stored document carries it, and sending the 404 does not end the
    handler: it goes on to call [findByIdAndDelete] and then tries to send a
    second response, with status 200, on the same request.  That send is
    refused, the [catch] block logs the error and its own 500 is refused as
    well, so the handler's promise rejects. *)
Theorem delete_work_404_falls_through (l : list Work) (req : Request) :
  let o := handle DeleteWork req l in
  (status_of o = Some 404 <->
   exists oid, ObjectId.cast (params_id req) = Some oid /\ lookup oid l = None) /\
  (status_of o = Some 404 ->
   events o =
     [ EFindById (params_id req);
       EStatus 404; ESent 404 (JMessage "work not found");
       EFindByIdAndDelete (params_id req);
       EStatus 200; ERefused 200 (JDeleted "work deleted" None);
       EConsoleLog ERR_HTTP_HEADERS_SENT;
       EStatus 500; ERefused 500 (JMessage "unable to delete work") ] /\
   rejection o = Some ERR_HTTP_HEADERS_SENT).
Proof.
  run_handler.
  destruct (ObjectId.cast (params_id req)) as [oid|] eqn:Hc; simpl.
  - destruct (lookup oid l) as [w|] eqn:Hl; simpl; rewrite ?Hc; simpl.
    + split; [split|]; try discriminate.
      intros (oid' & E & Hn). injection E as <-. congruence.
    + split; [split|].
      * intros _. now exists oid.
      * reflexivity.
      * intros _. split; reflexivity.
  - split; [split|]; try discriminate.
    intros (oid' & E & _). discriminate E.
Qed.

Lemma delete_work_404_falls_through_witness :
  rejection (handle DeleteWork (by_id id_b) [work_a]) = Some ERR_HTTP_HEADERS_SENT /\
  In (ERefused 200 (JDeleted "work deleted" None))
     (events (handle DeleteWork (by_id id_b) [work_a])).
Proof.
  destruct (delete_work_404_falls_through [work_a] (by_id id_b)) as (_ & H).
  destruct (H eq_refl) as (He & Hr).
  split; [exact Hr|]. rewrite He. simpl. tauto.
Defined.

(** C3, as the code has it.  For a syntactically valid id that no stored
    document carries, DELETE /works/:id answers 404 and leaves the
    collection unchanged.  Hence, with identifiers unique, once an id has
    been deleted every further DELETE of it answers 404, never 200, however
    often it is repeated. *)
Theorem delete_work_valid_absent_id
    (l : list Work) (req : Request) (oid : ObjectId.t) :
  ObjectId.cast (params_id req) = Some oid ->
  (lookup oid l = None ->
   response (handle DeleteWork req l) = Some (404, JMessage "work not found") /\
   store (handle DeleteWork req l) = l) /\
  (NoDup (map _id l) ->
   forall n,
     let l1 := store (handle DeleteWork req l) in
     let ln := Nat.iter n (fun s => store (handle DeleteWork req s)) l1 in
     ln = l1 /\
     status_of (handle DeleteWork req ln) = Some 404).
Proof.
  intros Hc.
  assert (A : forall s, lookup oid s = None ->
            response (handle DeleteWork req s) = Some (404, JMessage "work not found") /\
            store (handle DeleteWork req s) = s).
  { intros s Hl. split.
    - run_handler. rewrite Hc. simpl. rewrite Hl. simpl. rewrite ?Hc. reflexivity.
    - rewrite delete_work_store, Hc. now apply remove_id_absent. }
  split; [exact (A l)|].
  intros Hnd n. cbv zeta.
  assert (H1 : lookup oid (store (handle DeleteWork req l)) = None).
  { rewrite delete_work_store, Hc. now apply lookup_remove_id. }
  assert (Hn : Nat.iter n (fun s => store (handle DeleteWork req s))
                 (store (handle DeleteWork req l)) = store (handle DeleteWork req l)).
  { induction n as [|n IH]; simpl; [reflexivity|].
    rewrite IH. now apply A. }
  rewrite Hn. split; [reflexivity|].
  unfold status_of. destruct (A _ H1) as [-> _]. reflexivity.
Qed.

Lemma delete_work_valid_absent_id_witness :
  response (handle DeleteWork (by_id id_b) [work_a])
    = Some (404, JMessage "work not found") /\
  status_of (handle DeleteWork (by_id id_a)
               (store (handle DeleteWork (by_id id_a) [work_a]))) = Some 404.
Proof.
  split.
  - destruct (delete_work_valid_absent_id [work_a] (by_id id_b) id_b eq_refl)
      as (H & _).
    apply H. reflexivity.
  - destruct (delete_work_valid_absent_id [work_a] (by_id id_a) id_a eq_refl)
      as (_ & H).
    assert (Hnd : NoDup (map _id [work_a])).
    { simpl. constructor; [intros [] | constructor]. }
    exact (proj2 (H Hnd 0)).
Defined.

(** C3, as stated, fails on an id that is not syntactically valid: no
    stored document carries it, yet the lookup throws inside the [try] and
    the answer is the 500 of the [catch] block. *)
Lemma delete_work_malformed_id_500 :
  lookup "abc" [work_a] = None /\
  ~ In "abc" (map _id [work_a]) /\
  response (handle DeleteWork (by_id "abc") [work_a])
    = Some (500, JMessage "unable to delete work") /\
  status_of (handle DeleteWork (by_id "abc") [work_a]) <> Some 404.
Proof.
  split; [reflexivity|]. split.
  - simpl. intros [H|[]]. discriminate H.
  - split; [reflexivity | discriminate].
Qed.

(** ** POST /works *)

(** The three ways a POST can end: the document fails validation, its
    [_id] is taken, or it is stored and returned. *)
Lemma post_work_response (oid : ObjectId.t) (req : Request) (l : list Work) :
  response (handle (PostWork oid) req l) =
  let w := new_Work oid (body_title req) (body_description req) in
  if valid_work w then
    match lookup oid l with
    | Some _ => Some (500, JMessage "unable to create new work")
    | None => Some (200, JCreated "new work created" w)
    end
  else Some (500, JMessage "unable to create new work").
Proof.
  run_handler. unfold valid_work. simpl.
  destruct (checkRequired (body_title req) && checkRequired (body_description req));
    simpl; [|reflexivity].
  destruct (lookup oid l); reflexivity.
Qed.

Lemma post_work_logged (oid : ObjectId.t) (req : Request) (l : list Work) :
  logged (events (handle (PostWork oid) req l)) =
  let w := new_Work oid (body_title req) (body_description req) in
  if valid_work w then
    match lookup oid l with Some _ => [DuplicateKey] | None => [] end
  else [ValidationError (invalid_paths w)].
Proof.
  run_handler. unfold valid_work. simpl.
  destruct (checkRequired (body_title req) && checkRequired (body_description req));
    simpl; [|reflexivity].
  destruct (lookup oid l); reflexivity.
Qed.

Lemma post_work_rejection (oid : ObjectId.t) (req : Request) (l : list Work) :
  rejection (handle (PostWork oid) req l) = None.
Proof.
  run_handler. unfold valid_work. simpl.
  destruct (checkRequired (body_title req) && checkRequired (body_description req));
    simpl; [|reflexivity].
  destruct (lookup oid l); reflexivity.
Qed.

(** C4. A POST whose body lacks [title] or lacks [description] fails: [save]
    rejects the document with a ValidationError naming the missing paths,
    the handler logs it and answers 500 with its fixed message, and the
    collection holds no new document. *)
Theorem post_work_missing_field (l : list Work) (oid : ObjectId.t) (req : Request) :
  body_title req = JUndefined \/ body_description req = JUndefined ->
  let o := handle (PostWork oid) req l in
  let w := new_Work oid (body_title req) (body_description req) in
  logged (events o) = [ValidationError (invalid_paths w)] /\
  invalid_paths w <> [] /\
  response o = Some (500, JMessage "unable to create new work") /\
  store o = l.
Proof.
  intros H. cbv zeta.
  assert (V : valid_work (new_Work oid (body_title req) (body_description req)) = false).
  { unfold valid_work. simpl.
    destruct H as [-> | ->]; simpl; [reflexivity | apply andb_false_r]. }
  rewrite post_work_logged, post_work_response, post_work_store. cbv zeta.
  rewrite V. repeat split.
  unfold invalid_paths. simpl.
    destruct H as [-> | ->]; simpl; [discriminate|].
  destruct (checkRequired (body_title req)); discriminate.
Qed.

Lemma post_work_missing_field_witness :
  response (handle (PostWork id_a) (with_body JUndefined (JString "d")) [])
    = Some (500, JMessage "unable to create new work") /\
  store (handle (PostWork id_a) (with_body (JString "t") JUndefined) []) = [].
Proof.
  split.
  - exact (proj1 (proj2 (proj2
      (post_work_missing_field [] id_a (with_body JUndefined (JString "d"))
         (or_introl eq_refl))))).
  - exact (proj2 (proj2 (proj2
      (post_work_missing_field [] id_a (with_body (JString "t") JUndefined)
         (or_intror eq_refl))))).
Defined.

(** C5, as stated, fails on a body that has both fields with an empty or a
    [null] title: the required check of [workSchema] rejects the document
    and the answer is 500, although the generated identifier is well formed
    and free.  It is so for the first POST of a process as well. *)
Lemma post_work_both_fields_500 :
  let r1 := with_body (JString EmptyString) (JString "Work Description") in
  let r2 := with_body JNull (JString "Work Description") in
  ObjectId.isValid id_a = true /\
  lookup id_a [] = None /\
  (body_title r1 <> JUndefined /\ body_description r1 <> JUndefined /\
   response (handle (PostWork id_a) r1 [])
     = Some (500, JMessage "unable to create new work")) /\
  (body_title r2 <> JUndefined /\ body_description r2 <> JUndefined /\
   response (handle (PostWork id_a) r2 [])
     = Some (500, JMessage "unable to create new work")) /\
  response (fst (call CallPost r1 (boot 0)))
    = Some (500, JMessage "unable to create new work") /\
  response (fst (call CallPost r2 (boot 0)))
    = Some (500, JMessage "unable to create new work").
Proof.
  cbv zeta. repeat split; try reflexivity; discriminate.
Qed.

(** ** GET /works *)

(** C6. Once a POST has answered 200 with a new document X, GET /works
    answers 200 with all stored documents in the order of the collection,
    X being the last and occurring exactly once; on an empty collection it
    answers 200 with the empty sequence. *)
Theorem created_work_listed_once
    (l : list Work) (oid : ObjectId.t) (req req' : Request)
    (m : string) (X : Work) :
  response (handle (PostWork oid) req l) = Some (200, JCreated m X) ->
  let l' := store (handle (PostWork oid) req l) in
  response (handle GetWorks req' l') = Some (200, JWorks l') /\
  l' = (l ++ [X])%list /\
  count_occ Work_eq_dec l' X = 1 /\
  response (handle GetWorks req' []) = Some (200, JWorks []).
Proof.
  rewrite post_work_response, post_work_store. cbv zeta.
  destruct (valid_work _); [|discriminate].
  destruct (lookup oid l) eqn:Hl; [discriminate|].
  intros H. injection H as _ <-.
  repeat split.
  rewrite count_occ_app, count_occ_absent by exact Hl.
  rewrite count_occ_cons_eq by reflexivity. reflexivity.
Qed.

Lemma created_work_listed_once_witness :
  response (handle GetWorks (by_id EmptyString)
              (store (handle (PostWork id_a)
                        (with_body (JString "Work 1") (JString "Work Description"))
                        [])))
    = Some (200, JWorks [work_a]).
Proof.
  exact (proj1 (created_work_listed_once [] id_a
                  (with_body (JString "Work 1") (JString "Work Description"))
                  (by_id EmptyString) "new work created" work_a eq_refl)).
Defined.

(** ** PUT /works/:id *)

(** C2, as the code has it.  For a stored document that satisfies
    [workSchema] and is addressed by its id, and for any new title and
    description, PUT /works/:id answers 200 with the document as it was
    before the update, while the collection holds the new title and
    description under the same id; a following GET /works/:id returns the
    new values. *)
Theorem put_work_returns_snapshot
    (l : list Work) (req : Request) (oid : ObjectId.t) (w : Work) (t d : string) :
  ObjectId.cast (params_id req) = Some oid ->
  lookup oid l = Some w ->
  valid_work w = true ->
  body_title req = JString t ->
  body_description req = JString d ->
  let o := handle PutWork req l in
  let w' := mkWork (_id w) (JString t) (JString d) (__v w) in
  response o = Some (200, JWork (Some w)) /\
  rejection o = None /\
  lookup oid (store o) = Some w' /\
  response (handle GetWork req (store o)) = Some (200, JWork (Some w')).
Proof.
  intros Hc Hl Hv Ht Hd. cbv zeta.
  assert (Hs : lookup oid (store (handle PutWork req l))
               = Some (mkWork (_id w) (JString t) (JString d) (__v w))).
  { rewrite put_work_store, Hc, Hl, Ht, Hd.
    now rewrite (lookup_update_id oid (JString t) (JString d) l w Hl). }
  repeat split.
  - run_handler. rewrite Hc. simpl. rewrite Hl. simpl. rewrite ?Hc. simpl.
    rewrite ?Hl. simpl. rewrite Hv. reflexivity.
  - run_handler. rewrite Hc. simpl. rewrite Hl. simpl. rewrite ?Hc. simpl.
    rewrite ?Hl. simpl. rewrite Hv. reflexivity.
  - exact Hs.
  - now rewrite (get_work_response _ req oid Hc), Hs.
Qed.

Lemma put_work_returns_snapshot_witness :
  let req := mkRequest id_a (JString "Work 2") (JString "Other") in
  response (handle PutWork req [work_a]) = Some (200, JWork (Some work_a)) /\
  response (handle GetWork req (store (handle PutWork req [work_a])))
    = Some (200, JWork (Some (mkWork id_a (JString "Work 2") (JString "Other") 0))).
Proof.
  cbv zeta.
  destruct (put_work_returns_snapshot [work_a]
              (mkRequest id_a (JString "Work 2") (JString "Other"))
              id_a work_a "Work 2" "Other" eq_refl eq_refl eq_refl eq_refl eq_refl)
    as (H1 & _ & _ & H2).
  split; [exact H1 | exact H2].
Defined.

(** C2, as stated, fails on a stored document whose title is empty, which a
    POST followed by a PUT with an empty title leaves in the collection.  The
    next PUT writes the new values, then [save] validates the snapshot it
    got back, the empty title fails the required check, and the answer is
    500. *)
Lemma put_work_on_empty_title_500 :
  let l1 := run [ (PostWork id_a,
                   with_body (JString "Work 1") (JString "Work Description"));
                  (PutWork, mkRequest id_a (JString EmptyString) (JString "Other")) ] [] in
  let req := mkRequest id_a (JString "Work 2") (JString "Another") in
  ObjectId.cast (params_id req) = Some id_a /\
  lookup id_a l1 = Some (mkWork id_a (JString EmptyString) (JString "Other") 0) /\
  response (handle PutWork req l1) = Some (500, JMessage "unable to update work") /\
  logged (events (handle PutWork req l1)) = [ValidationError ["title"]] /\
  lookup id_a (store (handle PutWork req l1))
    = Some (mkWork id_a (JString "Work 2") (JString "Another") 0).
Proof.
  cbv zeta. repeat split.
Qed.

(** A PUT changes nothing but [title] and [description]. *)
Lemma put_work_frame (req : Request) (l : list Work) :
  map _id (store (handle PutWork req l)) = map _id l /\
  map __v (store (handle PutWork req l)) = map __v l.
Proof.
  rewrite put_work_store.
  destruct (ObjectId.cast (params_id req)) as [oid|]; [|split; reflexivity].
  destruct (lookup oid l); [|split; reflexivity].
  split; [apply update_id_ids|].
  induction l as [|x l IH]; simpl; [reflexivity|].
  destruct (has_id oid x); simpl; [reflexivity | now rewrite IH].
Qed.

Lemma In_remove_id (oid : ObjectId.t) (l : list Work) (w : Work) :
  In w (remove_id oid l) -> In w l.
Proof.
  induction l as [|x l IH]; simpl; [tauto|].
  destruct (has_id oid x); simpl; tauto.
Qed.

Lemma In_update_id (oid : ObjectId.t) (t d : jsval) (l : list Work) (w' : Work) :
  In w' (update_id oid t d l) ->
  exists w, In w l /\ _id w' = _id w /\ __v w' = __v w.
Proof.
  induction l as [|x l IH]; simpl; [tauto|].
  destruct (has_id oid x); simpl.
  - intros [E | H].
    + exists x. subst w'. simpl. tauto.
    + exists w'. tauto.
  - intros [E | H].
    + exists w'. tauto.
    + destruct (IH H) as (w & Hw). exists w. tauto.
Qed.

(** C7. Whatever sequence of PUT requests is served, every document of the
    collection keeps its place, its [_id] and its version key: only [title]
    and [description] can differ afterwards.  And whatever single request is
    served, a document of the collection afterwards either is the one a POST
    has just created, under an [_id] that was free, or has the [_id] and
    version key of a document that was there before, to which it is equal
    unless the request was a PUT. *)
Theorem put_sequence_keeps_ids (reqs : list Request) (l : list Work) :
  map _id (run_puts reqs l) = map _id l /\
  map __v (run_puts reqs l) = map __v l /\
  (forall e req w',
     In w' (store (handle e req l)) ->
     (exists w, In w l /\ _id w' = _id w /\ __v w' = __v w /\
                (e <> PutWork -> w' = w)) \/
     (e = PostWork (_id w') /\ lookup (_id w') l = None)).
Proof.
  split; [|split].
  - revert l. induction reqs as [|req reqs IH]; intros l; [reflexivity|].
    unfold run_puts in *. simpl. rewrite IH. apply put_work_frame.
  - revert l. induction reqs as [|req reqs IH]; intros l; [reflexivity|].
    unfold run_puts in *. simpl. rewrite IH. apply put_work_frame.
  - intros e req w'. destruct e.
    + rewrite get_works_store. intros H. left. exists w'. tauto.
    + rewrite get_work_store. intros H. left. exists w'. tauto.
    + rewrite post_work_store. cbv zeta.
      destruct (valid_work _); [|intros H; left; exists w'; tauto].
      destruct (lookup oid l) eqn:Hl; [intros H; left; exists w'; tauto|].
      intros H. apply in_app_or in H. destruct H as [H | [E | []]].
      * left. exists w'. tauto.
      * right. subst w'. simpl. tauto.
    + rewrite delete_work_store. intros H. left. exists w'.
      destruct (ObjectId.cast (params_id req));
        [apply In_remove_id in H|]; tauto.
    + rewrite put_work_store. intros H. left.
      destruct (ObjectId.cast (params_id req)) as [oid|];
        [|exists w'; tauto].
      destruct (lookup oid l) as [u|]; [|exists w'; tauto].
      destruct (In_update_id _ _ _ _ _ H) as (w & Hw).
      exists w. tauto.
Qed.

Lemma put_sequence_keeps_ids_witness :
  map _id (run_puts [mkRequest id_a (JString "Work 2") JNull;
                     mkRequest id_a JUndefined (JString "Other")] [work_a])
    = [id_a] /\
  exists w, In w [work_a] /\
            _id (mkWork id_a (JString "Work 2") (JString "Other") 0) = _id w.
Proof.
  split.
  - exact (proj1 (put_sequence_keeps_ids
                    [mkRequest id_a (JString "Work 2") JNull;
                     mkRequest id_a JUndefined (JString "Other")] [work_a])).
  - destruct (proj2 (proj2 (put_sequence_keeps_ids [] [work_a])) PutWork
                (mkRequest id_a (JString "Work 2") (JString "Other"))
                (mkWork id_a (JString "Work 2") (JString "Other") 0)
                (or_introl eq_refl))
      as [(w & Hin & Hid & _) | (E & _)].
    + exists w. split; [exact Hin | exact Hid].
    + discriminate E.
Defined.

(** ** All five endpoints *)

(** Whatever request a handler is given, the response it sends has status
    200, 404 or 500, so never 201, and a request that succeeds is answered
    with exactly 200. *)
Theorem statuses_200_404_500 (e : Endpoint) (req : Request) (l : list Work) :
  let o := handle e req l in
  (forall c, status_of o = Some c -> c = 200 \/ c = 404 \/ c = 500) /\
  status_of o <> Some 201 /\
  (succeeds e req l = true -> status_of o = Some 200).
Proof.
  cbv zeta.
  assert (A : (exists c, (c = 200 \/ c = 404 \/ c = 500) /\
                         status_of (handle e req l) = Some c)
              \/ status_of (handle e req l) = None).
  { destruct e.
    - left. exists 200. split; [tauto | reflexivity].
    - run_handler. destruct (ObjectId.cast (params_id req)); simpl.
      + left. exists 200. split; [tauto | reflexivity].
      + right. reflexivity.
    - left. unfold status_of. rewrite post_work_response. cbv zeta.
      destruct (valid_work _); [destruct (lookup oid l)|];
        eexists; (split; [|reflexivity]); tauto.
    - left. run_handler.
      destruct (ObjectId.cast (params_id req)) as [oid|] eqn:Hc; simpl.
      + destruct (lookup oid l) eqn:Hl; simpl; rewrite ?Hc; simpl;
          eexists; (split; [|reflexivity]); tauto.
      + eexists; (split; [|reflexivity]); tauto.
    - left. run_handler.
      destruct (ObjectId.cast (params_id req)) as [oid|] eqn:Hc; simpl.
      + destruct (lookup oid l) as [w|] eqn:Hl; simpl; rewrite ?Hc; simpl;
          rewrite ?Hl; simpl.
        * destruct (valid_work w); simpl;
            eexists; (split; [|reflexivity]); tauto.
        * eexists; (split; [|reflexivity]); tauto.
      + eexists; (split; [|reflexivity]); tauto. }
  split; [|split].
  - intros c Hc. destruct A as [(c' & Hc' & E) | E]; rewrite E in Hc.
    + injection Hc as <-. exact Hc'.
    + discriminate.
  - intros H. destruct A as [(c' & Hc' & E) | E]; rewrite E in H.
    + injection H as ->. lia.
    + discriminate.
  - unfold succeeds. destruct e; simpl target_missing.
    + reflexivity.
    + run_handler. destruct (ObjectId.cast (params_id req)); simpl;
        [reflexivity | discriminate].
    + unfold status_of.
      rewrite post_work_logged, post_work_response. cbv zeta.
      destruct (valid_work _); [destruct (lookup oid l)|];
        simpl; try reflexivity; discriminate.
    + run_handler.
      destruct (ObjectId.cast (params_id req)) as [oid|] eqn:Hc; simpl.
      * destruct (lookup oid l) eqn:Hl; simpl; rewrite ?Hc; simpl;
          [reflexivity | discriminate].
      * discriminate.
    + run_handler.
      destruct (ObjectId.cast (params_id req)) as [oid|] eqn:Hc; simpl.
      * destruct (lookup oid l) as [w|] eqn:Hl; simpl; rewrite ?Hc; simpl;
          rewrite ?Hl; simpl; [|discriminate].
        destruct (valid_work w); simpl; [reflexivity | discriminate].
      * discriminate.
Qed.

Lemma statuses_200_404_500_witness :
  status_of (handle (PostWork id_a)
               (with_body (JString "Work 1") (JString "Work Description")) [])
    = Some 200.
Proof.
  apply (statuses_200_404_500 (PostWork id_a)
           (with_body (JString "Work 1") (JString "Work Description")) []).
  reflexivity.
Defined.

(** ** The handlers, case by case

    Each handler run from a fresh [res] has a handful of outcomes, told
    apart by the cast of the id, the lookup and the validation.  The lemmas
    of this section give the whole outcome in each case; the properties
    after them are read off these. *)

Lemma get_work_outcome (req : Request) (l : list Work) :
  handle GetWork req l =
  match ObjectId.cast (params_id req) with
  | Some oid =>
      mkOutcome (Some (200, JWork (lookup oid l))) None l
        [EFindById (params_id req); EStatus 200; ESent 200 (JWork (lookup oid l))]
  | None =>
      mkOutcome None (Some CastError) l [EFindById (params_id req)]
  end.
Proof.
  run_handler. destruct (ObjectId.cast (params_id req)); reflexivity.
Qed.

Lemma post_work_outcome (oid : ObjectId.t) (req : Request) (l : list Work) :
  handle (PostWork oid) req l =
  let w := new_Work oid (body_title req) (body_description req) in
  if valid_work w then
    match lookup oid l with
    | None =>
        mkOutcome (Some (200, JCreated "new work created" w)) None (l ++ [w])
          [ESave w; EStatus 200; ESent 200 (JCreated "new work created" w)]
    | Some _ =>
        mkOutcome (Some (500, JMessage "unable to create new work")) None l
          [ESave w; EConsoleLog DuplicateKey; EStatus 500;
           ESent 500 (JMessage "unable to create new work")]
    end
  else
    mkOutcome (Some (500, JMessage "unable to create new work")) None l
      [ESave w; EConsoleLog (ValidationError (invalid_paths w)); EStatus 500;
       ESent 500 (JMessage "unable to create new work")].
Proof.
  run_handler. unfold valid_work. simpl.
  destruct (checkRequired (body_title req) && checkRequired (body_description req));
    simpl; [|reflexivity].
  destruct (lookup oid l); reflexivity.
Qed.

Lemma delete_work_outcome (req : Request) (l : list Work) :
  handle DeleteWork req l =
  let id := params_id req in
  match ObjectId.cast id with
  | None =>
      mkOutcome (Some (500, JMessage "unable to delete work")) None l
        [EFindById id; EConsoleLog CastError; EStatus 500;
         ESent 500 (JMessage "unable to delete work")]
  | Some oid =>
      match lookup oid l with
      | Some w =>
          mkOutcome (Some (200, JDeleted "work deleted" (Some w))) None
            (remove_id oid l)
            [EFindById id; EFindByIdAndDelete id; EStatus 200;
             ESent 200 (JDeleted "work deleted" (Some w))]
      | None =>
          mkOutcome (Some (404, JMessage "work not found"))
            (Some ERR_HTTP_HEADERS_SENT) (remove_id oid l)
            [EFindById id; EStatus 404; ESent 404 (JMessage "work not found");
             EFindByIdAndDelete id; EStatus 200;
             ERefused 200 (JDeleted "work deleted" None);
             EConsoleLog ERR_HTTP_HEADERS_SENT; EStatus 500;
             ERefused 500 (JMessage "unable to delete work")]
      end
  end.
Proof.
  run_handler.
  destruct (ObjectId.cast (params_id req)) as [oid|] eqn:Hc; simpl;
    [|reflexivity].
  destruct (lookup oid l) eqn:Hl; simpl; rewrite ?Hc; reflexivity.
Qed.

Lemma put_work_outcome (req : Request) (l : list Work) :
  handle PutWork req l =
  let id := params_id req in
  let t := body_title req in
  let d := body_description req in
  match ObjectId.cast id with
  | None =>
      mkOutcome (Some (500, JMessage "unable to update work")) None l
        [EFindById id; EConsoleLog CastError; EStatus 500;
         ESent 500 (JMessage "unable to update work")]
  | Some oid =>
      match lookup oid l with
      | None =>
          mkOutcome (Some (404, JMessage "no book found")) None l
            [EFindById id; EStatus 404; ESent 404 (JMessage "no book found")]
      | Some w =>
          if valid_work w then
            mkOutcome (Some (200, JWork (Some w))) None (update_id oid t d l)
              [EFindById id; EFindByIdAndUpdate id t d; ESave w; EStatus 200;
               ESent 200 (JWork (Some w))]
          else
            mkOutcome (Some (500, JMessage "unable to update work")) None
              (update_id oid t d l)
              [EFindById id; EFindByIdAndUpdate id t d; ESave w;
               EConsoleLog (ValidationError (invalid_paths w)); EStatus 500;
               ESent 500 (JMessage "unable to update work")]
      end
  end.
Proof.
  run_handler.
  destruct (ObjectId.cast (params_id req)) as [oid|] eqn:Hc; simpl;
    [|reflexivity].
  destruct (lookup oid l) as [w|] eqn:Hl; simpl; [|reflexivity].
  rewrite ?Hc. simpl. rewrite ?Hl. simpl.
  destruct (valid_work w); reflexivity.
Qed.

(** Splits a goal about [handle e req l] into the outcomes of [e]. *)
Ltac outcomes e req l :=
  destruct e as [| |?oid| |];
  [ change (handle GetWorks req l)
      with (mkOutcome (Some (200, JWorks l)) None l
              [EFind; EStatus 200; ESent 200 (JWorks l)])
  | rewrite (get_work_outcome req l)
  | rewrite (post_work_outcome _ req l)
  | rewrite (delete_work_outcome req l)
  | rewrite (put_work_outcome req l) ];
  cbv zeta;
  repeat match goal with
  | |- context [match ObjectId.cast ?s with _ => _ end] =>
      destruct (ObjectId.cast s) as [?oid|] eqn:?Hcast
  | |- context [match lookup ?o ?k with _ => _ end] =>
      destruct (lookup o k) as [?w|] eqn:?Hlook
  | |- context [if valid_work ?w then _ else _] =>
      destruct (valid_work w) eqn:?Hvalid
  end;
  simpl.

(** ** DELETE and PUT beyond the not-found case *)

(** X1. DELETE /works/:id on a well-formed id that a stored document carries
    answers 200 with that document in the body and removes it, leaving one
    document fewer; the handler's promise resolves.  With identifiers
    unique the id is then gone: a following GET /works/:id answers 200 with
    a [null] body. *)
Theorem delete_work_existing
    (l : list Work) (req : Request) (oid : ObjectId.t) (w : Work) :
  ObjectId.cast (params_id req) = Some oid ->
  lookup oid l = Some w ->
  let o := handle DeleteWork req l in
  response o = Some (200, JDeleted "work deleted" (Some w)) /\
  rejection o = None /\
  store o = remove_id oid l /\
  S (length (store o)) = length l /\
  (NoDup (map _id l) ->
   lookup oid (store o) = None /\
   response (handle GetWork req (store o)) = Some (200, JWork None)).
Proof.
  intros Hc Hl. cbv zeta. rewrite delete_work_outcome. cbv zeta.
  rewrite Hc, Hl. simpl. repeat split.
  - clear Hc. revert Hl. unfold lookup.
    induction l as [|x l IH]; simpl; [discriminate|].
    destruct (has_id oid x); simpl; [reflexivity|].
    intros H. now rewrite IH.
  - now apply lookup_remove_id.
  - rewrite (get_work_response _ req oid Hc).
    now rewrite lookup_remove_id.
Qed.

Lemma delete_work_existing_witness :
  response (handle DeleteWork (by_id id_a) [work_a])
    = Some (200, JDeleted "work deleted" (Some work_a)) /\
  store (handle DeleteWork (by_id id_a) [work_a]) = [].
Proof.
  destruct (delete_work_existing [work_a] (by_id id_a) id_a work_a eq_refl eq_refl)
    as (H1 & _ & H2 & _).
  split; [exact H1 | exact H2].
Defined.

(** X2. PUT /works/:id on a well-formed id that no stored document carries
    answers 404 and returns at once: the lookup and the 404 are all the
    handler does, no update is issued, the collection is unchanged and the
    handler's promise resolves. *)
Theorem put_work_absent_returns
    (l : list Work) (req : Request) (oid : ObjectId.t) :
  ObjectId.cast (params_id req) = Some oid ->
  lookup oid l = None ->
  let o := handle PutWork req l in
  response o = Some (404, JMessage "no book found") /\
  events o = [ EFindById (params_id req);
               EStatus 404; ESent 404 (JMessage "no book found") ] /\
  rejection o = None /\
  store o = l.
Proof.
  intros Hc Hl. cbv zeta. rewrite put_work_outcome. cbv zeta.
  rewrite Hc, Hl. repeat split.
Qed.

Lemma put_work_absent_returns_witness :
  response (handle PutWork (mkRequest id_b (JString "Work 2") (JString "Other"))
              [work_a])
    = Some (404, JMessage "no book found").
Proof.
  exact (proj1 (put_work_absent_returns [work_a]
                  (mkRequest id_b (JString "Work 2") (JString "Other"))
                  id_b eq_refl eq_refl)).
Defined.

(** X3. On an id that is not well formed, DELETE and PUT both end in their
    [catch] block: the CastError of the lookup is logged, the answer is 500
    with the handler's fixed message, the collection is unchanged and the
    handler's promise resolves. *)
Theorem malformed_id_caught (l : list Work) (req : Request) :
  ObjectId.cast (params_id req) = None ->
  (let o := handle DeleteWork req l in
   response o = Some (500, JMessage "unable to delete work") /\
   logged (events o) = [CastError] /\ rejection o = None /\ store o = l) /\
  (let o := handle PutWork req l in
   response o = Some (500, JMessage "unable to update work") /\
   logged (events o) = [CastError] /\ rejection o = None /\ store o = l).
Proof.
  intros Hc. cbv zeta. rewrite delete_work_outcome, put_work_outcome. cbv zeta.
  rewrite Hc. repeat split.
Qed.

Lemma malformed_id_caught_witness :
  response (handle PutWork (mkRequest "abc" (JString "Work 2") JNull) [work_a])
    = Some (500, JMessage "unable to update work").
Proof.
  exact (proj1 (proj2 (malformed_id_caught [work_a]
                         (mkRequest "abc" (JString "Work 2") JNull) eq_refl))).
Defined.

(** ** What every request has in common *)

(** X4. The promise of a handler rejects in two cases only: GET /works/:id
    on an id that is not well formed, with the CastError, and
    DELETE /works/:id on a well-formed id that no stored document carries,
    with the error of the refused second response. *)
Theorem rejection_cases (e : Endpoint) (req : Request) (l : list Work) (err : Error) :
  rejection (handle e req l) = Some err <->
  (e = GetWork /\ ObjectId.cast (params_id req) = None /\ err = CastError) \/
  (e = DeleteWork /\
   (exists oid, ObjectId.cast (params_id req) = Some oid /\ lookup oid l = None) /\
   err = ERR_HTTP_HEADERS_SENT).
Proof.
  outcomes e req l;
    (split;
     [ intros H; try discriminate H; injection H as <-
     | intros [(E1 & E2 & E3) | (E1 & (o & E2 & E3) & E4)];
       try discriminate E1; try congruence ]).
  - left. repeat split.
  - right. repeat split. now exists oid.
Qed.

Lemma rejection_cases_witness :
  rejection (handle GetWork (by_id "abc") [work_a]) = Some CastError.
Proof.
  apply (rejection_cases GetWork (by_id "abc") [work_a] CastError).
  left. repeat split.
Defined.

(** X5. Every request is answered by its handler, except a GET /works/:id
    on an id that is not well formed, for which the handler sends
    nothing. *)
Theorem unanswered_iff (e : Endpoint) (req : Request) (l : list Work) :
  response (handle e req l) = None <->
  (e = GetWork /\ ObjectId.cast (params_id req) = None).
Proof.
  outcomes e req l; split;
    try discriminate;
    try (intros (E & _); discriminate E);
    try (intros (_ & E); discriminate E).
  - intros _. split; reflexivity.
  - intros _. reflexivity.
Qed.

Lemma unanswered_iff_witness :
  response (handle GetWork (by_id "abc") [work_a]) = None.
Proof.
  apply (unanswered_iff GetWork (by_id "abc") [work_a]).
  split; reflexivity.
Defined.

(** X6. Apart from PUT, a request that is not answered 200 leaves the
    collection exactly as it was. *)
Theorem failure_keeps_store (e : Endpoint) (req : Request) (l : list Work) :
  e <> PutWork ->
  status_of (handle e req l) <> Some 200 ->
  store (handle e req l) = l.
Proof.
  unfold status_of. outcomes e req l; intros He Hs;
    try reflexivity; try (now elim Hs); try (now elim He).
  now apply remove_id_absent.
Qed.

Lemma failure_keeps_store_witness :
  store (handle (PostWork id_b) (with_body JNull (JString "Other")) [work_a])
    = [work_a].
Proof.
  apply (failure_keeps_store (PostWork id_b)
           (with_body JNull (JString "Other")) [work_a]);
    discriminate.
Defined.

(** ** Documents under other ids *)

Lemma has_id_false (oid : ObjectId.t) (w : Work) :
  has_id oid w = false <-> _id w <> oid.
Proof. unfold has_id. apply String.eqb_neq. Qed.

Lemma lookup_remove_other (j oid : ObjectId.t) (l : list Work) :
  j <> oid -> lookup j (remove_id oid l) = lookup j l.
Proof.
  intros Hj. unfold lookup. induction l as [|x l IH]; simpl; [reflexivity|].
  destruct (has_id oid x) eqn:E; simpl.
  - apply has_id_true in E.
    assert (F : has_id j x = false) by (apply has_id_false; congruence).
    now rewrite F.
  - now rewrite IH.
Qed.

Lemma lookup_update_other (j oid : ObjectId.t) (t d : jsval) (l : list Work) :
  j <> oid -> lookup j (update_id oid t d l) = lookup j l.
Proof.
  intros Hj. unfold lookup. induction l as [|x l IH]; simpl; [reflexivity|].
  destruct (has_id oid x) eqn:E; simpl.
  - apply has_id_true in E.
    assert (F : has_id j x = false) by (apply has_id_false; congruence).
    unfold has_id in *. simpl. now rewrite F.
  - now rewrite IH.
Qed.

Lemma lookup_app_other (j : ObjectId.t) (l : list Work) (w : Work) :
  _id w <> j -> lookup j (l ++ [w]) = lookup j l.
Proof.
  intros Hj. unfold lookup. induction l as [|x l IH]; simpl.
  - apply has_id_false in Hj. now rewrite Hj.
  - now rewrite IH.
Qed.

(** X7. A request leaves every document under another id as it was: for an
    id [j] that is neither the one the request addresses nor the one a POST
    assigns, looking [j] up gives the same document before and after. *)
Theorem other_ids_untouched
    (e : Endpoint) (req : Request) (l : list Work) (j : ObjectId.t) :
  ObjectId.cast (params_id req) <> Some j ->
  e <> PostWork j ->
  lookup j (store (handle e req l)) = lookup j l.
Proof.
  intros Hc He. outcomes e req l; try reflexivity.
  - apply lookup_app_other. simpl. congruence.
  - apply lookup_remove_other. congruence.
  - apply lookup_remove_other. congruence.
  - apply lookup_update_other. congruence.
  - apply lookup_update_other. congruence.
Qed.

Lemma other_ids_untouched_witness :
  lookup id_a (store (handle DeleteWork (by_id id_b) [work_a])) = Some work_a.
Proof.
  refine (other_ids_untouched DeleteWork (by_id id_b) [work_a] id_a _ _);
    discriminate.
Defined.

(** ** Identifiers of a collection built through the API *)

Lemma handle_ids (e : Endpoint) (req : Request) (l : list Work) (i : ObjectId.t) :
  In i (map _id (store (handle e req l))) ->
  In i (map _id l) \/ e = PostWork i.
Proof.
  outcomes e req l; try tauto.
  - rewrite map_app, in_app_iff. simpl. intros [H | [<- | []]]; tauto.
  - intros H. left. now apply remove_id_ids in H.
  - intros H. left. now apply remove_id_ids in H.
  - rewrite update_id_ids. tauto.
  - rewrite update_id_ids. tauto.
Qed.

(** X8. In a collection built from the empty one by any sequence of
    requests, no two documents carry the same [_id], and every [_id] is one
    that a POST of the sequence assigned. *)
Theorem reachable_ids (rs : list (Endpoint * Request)) :
  NoDup (map _id (run rs [])) /\
  (forall i, In i (map _id (run rs [])) -> exists req, In (PostWork i, req) rs).
Proof.
  split; [apply run_NoDup; constructor|].
  assert (G : forall l i, In i (map _id (run rs l)) ->
                In i (map _id l) \/ exists req, In (PostWork i, req) rs).
  { induction rs as [|[e req] rs IH]; simpl; intros l i H; [tauto|].
    destruct (IH _ _ H) as [H1 | (r & H1)].
    - destruct (handle_ids _ _ _ _ H1) as [H2 | ->]; [tauto|].
      right. exists req. tauto.
    - right. exists r. tauto. }
  intros i H. destruct (G [] i H) as [[] | H1]. exact H1.
Qed.

Lemma reachable_ids_witness :
  exists req,
    In (PostWork id_a, req)
       [ (PostWork id_a, with_body (JString "Work 1") (JString "Work Description"));
         (PutWork, mkRequest id_a (JString "Work 2") JUndefined) ].
Proof.
  apply (proj2 (reachable_ids
           [ (PostWork id_a, with_body (JString "Work 1") (JString "Work Description"));
             (PutWork, mkRequest id_a (JString "Work 2") JUndefined) ]) id_a).
  simpl. tauto.
Defined.

(** ** Documents that satisfy the schema *)

Lemma update_id_valid (oid : ObjectId.t) (t d : jsval) (l : list Work) :
  checkRequired t = true -> checkRequired d = true ->
  Forall (fun w => valid_work w = true) l ->
  Forall (fun w => valid_work w = true) (update_id oid t d l).
Proof.
  intros Ht Hd. induction 1 as [|x l Hx Hl IH]; simpl; [constructor|].
  destruct (has_id oid x); constructor; trivial.
  unfold valid_work, apply_update. simpl.
  destruct t; try discriminate. destruct d; try discriminate.
  simpl in *. now rewrite Ht, Hd.
Qed.

Lemma remove_id_valid (oid : ObjectId.t) (l : list Work) :
  Forall (fun w => valid_work w = true) l ->
  Forall (fun w => valid_work w = true) (remove_id oid l).
Proof.
  induction 1 as [|x l Hx Hl IH]; simpl; [constructor|].
  destruct (has_id oid x); [exact Hl | now constructor].
Qed.

(** X9. A collection whose documents all satisfy [workSchema] stays so
    under every request, provided a PUT carries a title and a description
    that pass the required check; POST needs no proviso, since it stores
    only what [save] has validated. *)
Theorem valid_documents_kept (e : Endpoint) (req : Request) (l : list Work) :
  Forall (fun w => valid_work w = true) l ->
  (e = PutWork ->
   checkRequired (body_title req) = true /\
   checkRequired (body_description req) = true) ->
  Forall (fun w => valid_work w = true) (store (handle e req l)).
Proof.
  intros Hl Hp. outcomes e req l; trivial.
  - apply Forall_app. split; [exact Hl | now repeat constructor].
  - now apply remove_id_valid.
  - now apply remove_id_valid.
  - destruct (Hp eq_refl). now apply update_id_valid.
  - destruct (Hp eq_refl). now apply update_id_valid.
Qed.

Lemma valid_documents_kept_witness :
  Forall (fun w => valid_work w = true)
    (store (handle PutWork (mkRequest id_a (JString "Work 2") (JString "Other"))
              [work_a])).
Proof.
  apply (valid_documents_kept PutWork
           (mkRequest id_a (JString "Work 2") (JString "Other")) [work_a]).
  - repeat constructor.
  - intros _. split; reflexivity.
Defined.

(** PUT is answered 500 only on an id that is not well formed or on a
    stored document that fails the schema. *)
Lemma put_work_500 (req : Request) (l : list Work) :
  status_of (handle PutWork req l) = Some 500 ->
  ObjectId.cast (params_id req) = None \/
  exists oid w, ObjectId.cast (params_id req) = Some oid /\
                lookup oid l = Some w /\ valid_work w = false.
Proof.
  unfold status_of. rewrite put_work_outcome. cbv zeta.
  destruct (ObjectId.cast (params_id req)) as [oid|]; [|tauto].
  destruct (lookup oid l) as [w|] eqn:Hl; [|discriminate].
  destruct (valid_work w) eqn:Hv; [discriminate|].
  intros _. right. exists oid, w. tauto.
Qed.

(** X10. Starting from the empty collection, as long as every PUT served
    carries a title and a description that pass the required check, every
    stored document satisfies [workSchema], and a PUT on a well-formed id is
    never answered 500. *)
Theorem careful_puts_never_500 (rs : list (Endpoint * Request)) :
  (forall req, In (PutWork, req) rs ->
     checkRequired (body_title req) = true /\
     checkRequired (body_description req) = true) ->
  Forall (fun w => valid_work w = true) (run rs []) /\
  (forall req, ObjectId.cast (params_id req) <> None ->
     status_of (handle PutWork req (run rs [])) <> Some 500).
Proof.
  intros Hp.
  assert (G : forall l, Forall (fun w => valid_work w = true) l ->
                Forall (fun w => valid_work w = true) (run rs l)).
  { induction rs as [|[e req] rs IH]; simpl; intros l Hl; [exact Hl|].
    apply IH.
    - intros r Hr. apply Hp. now right.
    - apply valid_documents_kept; [exact Hl|].
      intros ->. apply Hp. now left. }
  assert (V := G [] (Forall_nil _)).
  split; [exact V|].
  intros req Hc H500. apply put_work_500 in H500.
  destruct H500 as [E | (oid & w & _ & Hl & Hv)]; [contradiction|].
  apply lookup_Some_id in Hl. destruct Hl as [_ Hin].
  rewrite Forall_forall in V. specialize (V w Hin). congruence.
Qed.

Lemma careful_puts_never_500_witness :
  status_of
    (handle PutWork (mkRequest id_a (JString "Work 3") (JString "More"))
       (run [ (PostWork id_a, with_body (JString "Work 1") (JString "Work Description"));
              (PutWork, mkRequest id_a (JString "Work 2") (JString "Other")) ] []))
    <> Some 500.
Proof.
  refine (proj2 (careful_puts_never_500
            [ (PostWork id_a, with_body (JString "Work 1") (JString "Work Description"));
              (PutWork, mkRequest id_a (JString "Work 2") (JString "Other")) ] _)
            (mkRequest id_a (JString "Work 3") (JString "More")) _).
  - intros req [H | [H | []]]; [discriminate H|].
    injection H as <-. split; reflexivity.
  - discriminate.
Defined.

(** ** Round trips after a POST *)

Lemma remove_id_app_new (oid : ObjectId.t) (l : list Work) (w : Work) :
  lookup oid l = None -> _id w = oid -> remove_id oid (l ++ [w]) = l.
Proof.
  unfold lookup. induction l as [|x l IH]; simpl; intros H Hid.
  - apply has_id_true in Hid. now rewrite Hid.
  - destruct (has_id oid x); [discriminate|]. now rewrite IH.
Qed.

Lemma post_work_created
    (oid : ObjectId.t) (req : Request) (l : list Work) (m : string) (X : Work) :
  response (handle (PostWork oid) req l) = Some (200, JCreated m X) ->
  lookup oid l = None /\ _id X = oid /\ valid_work X = true /\
  store (handle (PostWork oid) req l) = (l ++ [X])%list.
Proof.
  rewrite post_work_outcome. cbv zeta.
  destruct (valid_work _) eqn:Hv; [|discriminate].
  destruct (lookup oid l) eqn:Hl; [discriminate|].
  simpl. intros H. injection H as _ <-. repeat split. exact Hv.
Qed.

(** X11. A document that POST has created can be read back: when the
    answer to the POST was 200 with document X, a GET /works/:id on the id
    of X, on the collection the POST left, answers 200 with X itself. *)
Theorem post_then_get_by_id
    (l : list Work) (oid : ObjectId.t) (req req' : Request) (m : string) (X : Work) :
  response (handle (PostWork oid) req l) = Some (200, JCreated m X) ->
  ObjectId.cast (params_id req') = Some (_id X) ->
  response (handle GetWork req' (store (handle (PostWork oid) req l)))
    = Some (200, JWork (Some X)).
Proof.
  intros H Hc. destruct (post_work_created _ _ _ _ _ H) as (Hl & Hid & _ & ->).
  rewrite (get_work_response _ req' _ Hc).
  rewrite (lookup_app_new (_id X) l X); [reflexivity | now rewrite Hid | reflexivity].
Qed.

Lemma post_then_get_by_id_witness :
  response
    (handle GetWork (by_id id_a)
       (store (handle (PostWork id_a)
                 (with_body (JString "Work 1") (JString "Work Description")) [])))
    = Some (200, JWork (Some work_a)).
Proof.
  exact (post_then_get_by_id [] id_a
           (with_body (JString "Work 1") (JString "Work Description"))
           (by_id id_a) "new work created" work_a eq_refl eq_refl).
Defined.

(** X12. Deleting a document right after the POST that created it undoes
    the POST: the DELETE answers 200 with that document, and the collection
    is again what it was before the POST. *)
Theorem post_then_delete_restores
    (l : list Work) (oid : ObjectId.t) (req req' : Request) (m : string) (X : Work) :
  response (handle (PostWork oid) req l) = Some (200, JCreated m X) ->
  ObjectId.cast (params_id req') = Some (_id X) ->
  let l1 := store (handle (PostWork oid) req l) in
  response (handle DeleteWork req' l1)
    = Some (200, JDeleted "work deleted" (Some X)) /\
  store (handle DeleteWork req' l1) = l.
Proof.
  intros H Hc. cbv zeta.
  destruct (post_work_created _ _ _ _ _ H) as (Hl & Hid & _ & ->).
  rewrite delete_work_outcome. cbv zeta. rewrite Hc.
  rewrite (lookup_app_new (_id X) l X); [| now rewrite Hid | reflexivity].
  simpl. split; [reflexivity|].
  apply remove_id_app_new; [now rewrite Hid | reflexivity].
Qed.

Lemma post_then_delete_restores_witness :
  store
    (handle DeleteWork (by_id id_b)
       (store (handle (PostWork id_b)
                 (with_body (JString "Work 2") (JString "Other")) [work_a])))
    = [work_a].
Proof.
  exact (proj2 (post_then_delete_restores [work_a] id_b
                  (with_body (JString "Work 2") (JString "Other"))
                  (by_id id_b) "new work created"
                  (mkWork id_b (JString "Work 2") (JString "Other") 0)
                  eq_refl eq_refl)).
Defined.

(** ** PUT after PUT *)

Lemma update_id_twice (oid : ObjectId.t) (t1 d1 t2 d2 : jsval) (l : list Work) :
  t2 <> JUndefined -> d2 <> JUndefined ->
  update_id oid t2 d2 (update_id oid t1 d1 l) = update_id oid t2 d2 l.
Proof.
  intros Ht Hd. induction l as [|x l IH]; simpl; [reflexivity|].
  destruct (has_id oid x) eqn:E; simpl.
  - unfold has_id in *. simpl. rewrite E. unfold apply_update. simpl.
    destruct t2; [now elim Ht| |]; (destruct d2; [now elim Hd| |]); reflexivity.
  - rewrite E. now rewrite IH.
Qed.

(** X13. The last write wins: after a PUT on an id, a second PUT on the
    same id that carries both fields leaves the collection exactly as if the
    first PUT had never been served. *)
Theorem put_last_write_wins (r1 r2 : Request) (l : list Work) :
  params_id r1 = params_id r2 ->
  body_title r2 <> JUndefined ->
  body_description r2 <> JUndefined ->
  store (handle PutWork r2 (store (handle PutWork r1 l)))
    = store (handle PutWork r2 l).
Proof.
  intros Hid Ht Hd. rewrite !put_work_store, Hid.
  destruct (ObjectId.cast (params_id r2)) as [oid|]; [|reflexivity].
  destruct (lookup oid l) as [w|] eqn:Hl.
  - rewrite (lookup_update_id oid _ _ l w Hl). now apply update_id_twice.
  - now rewrite Hl.
Qed.

Lemma put_last_write_wins_witness :
  store (handle PutWork (mkRequest id_a (JString "Work 3") (JString "More"))
           (store (handle PutWork (mkRequest id_a (JString "Work 2") JNull)
                     [work_a])))
    = [mkWork id_a (JString "Work 3") (JString "More") 0].
Proof.
  refine (eq_trans
            (put_last_write_wins (mkRequest id_a (JString "Work 2") JNull)
               (mkRequest id_a (JString "Work 3") (JString "More")) [work_a]
               eq_refl _ _) eq_refl);
    discriminate.
Defined.

(** ** Which status, when *)

(** X14. The answer of PUT /works/:id is decided by the id and by the
    stored document alone, not by the new values: 200 when the id is well
    formed and names a stored document that satisfies [workSchema], 404 when
    it is well formed and names none, 500 when it is not well formed or the
    stored document fails the schema. *)
Theorem put_work_status_cases (req : Request) (l : list Work) :
  let s := status_of (handle PutWork req l) in
  let c := ObjectId.cast (params_id req) in
  (s = Some 200 <->
   exists oid w, c = Some oid /\ lookup oid l = Some w /\ valid_work w = true) /\
  (s = Some 404 <-> exists oid, c = Some oid /\ lookup oid l = None) /\
  (s = Some 500 <->
   c = None \/
   exists oid w, c = Some oid /\ lookup oid l = Some w /\ valid_work w = false).
Proof.
  cbv zeta. unfold status_of. rewrite put_work_outcome. cbv zeta.
  destruct (ObjectId.cast (params_id req)) as [oid|] eqn:Hc.
  - destruct (lookup oid l) as [w|] eqn:Hl.
    + destruct (valid_work w) eqn:Hv; simpl; repeat split;
        try discriminate; try tauto;
        try (intros _; exists oid, w; tauto);
        try (intros _; right; exists oid, w; tauto);
        try (intros (o & u & E & Hu & Hvu); injection E as <-; congruence);
        try (intros (o & E & Hu); injection E as <-; congruence).
      intros [E | (o & u & E & Hu & Hvu)]; [discriminate E|].
      injection E as <-. congruence.
    + simpl. repeat split; try discriminate; try tauto.
      * intros (o & u & E & Hu & _). injection E as <-. congruence.
      * intros _. exists oid. tauto.
      * intros [E | (o & u & E & Hu & _)]; [discriminate E|].
        injection E as <-. congruence.
  - simpl. repeat split; try discriminate; try tauto.
    + intros (o & u & E & _). discriminate E.
    + intros (o & E & _). discriminate E.
Qed.

Lemma put_work_status_cases_witness :
  status_of (handle PutWork (mkRequest id_a JNull JNull) [work_a]) = Some 200.
Proof.
  apply (put_work_status_cases (mkRequest id_a JNull JNull) [work_a]).
  exists id_a, work_a. repeat split.
Defined.

(** X15. POST /works is answered 200 exactly when title and description
    both pass the required check and the generated id is free, and 500
    otherwise.  When a field fails the check, whether absent, [null] or
    empty, nothing is stored and the error logged is a ValidationError that
    names exactly the failing paths. *)
Theorem post_work_validation (oid : ObjectId.t) (req : Request) (l : list Work) :
  let o := handle (PostWork oid) req l in
  let t := body_title req in
  let d := body_description req in
  (status_of o = Some 200 <->
   checkRequired t = true /\ checkRequired d = true /\ lookup oid l = None) /\
  (status_of o <> Some 200 -> status_of o = Some 500) /\
  (checkRequired t = false \/ checkRequired d = false ->
   store o = l /\
   exists ps, logged (events o) = [ValidationError ps] /\
              (In "title" ps <-> checkRequired t = false) /\
              (In "description" ps <-> checkRequired d = false)).
Proof.
  cbv zeta. unfold status_of. rewrite post_work_outcome. cbv zeta.
  unfold valid_work, invalid_paths. simpl.
  destruct (checkRequired (body_title req)) eqn:Ht;
    destruct (checkRequired (body_description req)) eqn:Hd; simpl.
  1: { destruct (lookup oid l) eqn:Hl; simpl;
         (split; [|split; [|intros [E | E]; discriminate E]]);
         try tauto; split; try discriminate; try tauto.
       intros (_ & _ & E). discriminate E. }
  all: (split;
        [ split; [discriminate | intros (A & B & _); discriminate]
        | split;
          [ intros _; reflexivity
          | intros _; split; [reflexivity|];
            eexists; split; [reflexivity|];
            split; split; intros X; try reflexivity; try discriminate X;
            simpl in *; try tauto;
            destruct X as [X | []]; discriminate X ] ]).
Qed.

Lemma post_work_validation_witness :
  store (handle (PostWork id_b) (with_body (JString EmptyString) JNull) [work_a])
    = [work_a].
Proof.
  apply (post_work_validation id_b (with_body (JString EmptyString) JNull) [work_a]).
  left. reflexivity.
Defined.

(** X16. DELETE /works/:id is answered 200 exactly when the id is well
    formed and names a stored document, and 500 exactly when the id is not
    well formed. *)
Theorem delete_work_status_cases (req : Request) (l : list Work) :
  let s := status_of (handle DeleteWork req l) in
  let c := ObjectId.cast (params_id req) in
  (s = Some 200 <-> exists oid w, c = Some oid /\ lookup oid l = Some w) /\
  (s = Some 500 <-> c = None).
Proof.
  cbv zeta. unfold status_of. rewrite delete_work_outcome. cbv zeta.
  destruct (ObjectId.cast (params_id req)) as [oid|] eqn:Hc.
  - destruct (lookup oid l) as [w|] eqn:Hl; simpl; repeat split;
      try discriminate; try tauto.
    + intros _. exists oid, w. tauto.
    + intros (o & u & E & Hu). injection E as <-. congruence.
  - simpl. repeat split; try discriminate; try tauto.
    intros (o & u & E & _). discriminate E.
Qed.

Lemma delete_work_status_cases_witness :
  status_of (handle DeleteWork (by_id id_a) [work_a]) = Some 200.
Proof.
  apply (delete_work_status_cases (by_id id_a) [work_a]).
  exists id_a, work_a. split; reflexivity.
Defined.

(** ** Size of the collection, and errors behind a status *)

Lemma remove_id_length (oid : ObjectId.t) (l : list Work) (w : Work) :
  lookup oid l = Some w -> S (length (remove_id oid l)) = length l.
Proof.
  unfold lookup. induction l as [|x l IH]; simpl; [discriminate|].
  destruct (has_id oid x); simpl; [reflexivity|].
  intros H. now rewrite IH.
Qed.

Lemma update_id_length (oid : ObjectId.t) (t d : jsval) (l : list Work) :
  length (update_id oid t d l) = length l.
Proof.
  rewrite <- (length_map _id (update_id oid t d l)), update_id_ids.
  apply length_map.
Qed.

(** X17. The number of stored documents changes in two ways only: a POST
    answered 200 adds one and a DELETE answered 200 takes one away.  Every
    other request, and every request answered otherwise, leaves the number
    as it was. *)
Theorem collection_size (e : Endpoint) (req : Request) (l : list Work) :
  length (store (handle e req l)) =
  match e, status_of (handle e req l) with
  | PostWork _, Some 200 => S (length l)
  | DeleteWork, Some 200 => pred (length l)
  | _, _ => length l
  end.
Proof.
  unfold status_of. outcomes e req l; try reflexivity.
  - rewrite length_app. simpl. lia.
  - now rewrite <- (remove_id_length oid l w Hlook).
  - now rewrite remove_id_absent.
  - apply update_id_length.
  - apply update_id_length.
Qed.

(** X18. A 200 is never sent after an error: when a request is answered
    200 no error was thrown while it was served.  A 500 always comes from a
    [catch] block, which has logged exactly one error before sending it, and
    the handler's promise resolves. *)
Theorem status_and_errors (e : Endpoint) (req : Request) (l : list Work) :
  let o := handle e req l in
  (status_of o = Some 200 -> logged (events o) = [] /\ rejection o = None) /\
  (status_of o = Some 500 ->
   (exists err, logged (events o) = [err]) /\ rejection o = None).
Proof.
  cbv zeta. unfold status_of. outcomes e req l; split; intros H;
    try discriminate H; split; try reflexivity; eexists; reflexivity.
Qed.

Lemma status_and_errors_witness :
  logged (events (handle PutWork (mkRequest "abc" JNull JNull) [work_a]))
    = [CastError].
Proof.
  destruct (proj2 (status_and_errors PutWork (mkRequest "abc" JNull JNull) [work_a])
              eq_refl) as ((err & H) & _).
  rewrite H. simpl in H. injection H as <-. reflexivity.
Defined.

(** ** A PUT that fails after writing *)

(** X19. When the stored document fails [workSchema], a PUT on it is
    answered 500 although the update has been written: the collection holds
    the new values under the id.  If those values pass the required check
    the document is thereby repaired, and the same PUT served again is
    answered 200. *)
Theorem put_work_500_has_written
    (l : list Work) (req : Request) (oid : ObjectId.t) (w : Work) :
  ObjectId.cast (params_id req) = Some oid ->
  lookup oid l = Some w ->
  valid_work w = false ->
  let o := handle PutWork req l in
  response o = Some (500, JMessage "unable to update work") /\
  logged (events o) = [ValidationError (invalid_paths w)] /\
  lookup oid (store o)
    = Some (apply_update (body_title req) (body_description req) w) /\
  (checkRequired (body_title req) = true ->
   checkRequired (body_description req) = true ->
   status_of (handle PutWork req (store o)) = Some 200).
Proof.
  intros Hc Hl Hv. cbv zeta.
  assert (Hs : lookup oid (store (handle PutWork req l))
               = Some (apply_update (body_title req) (body_description req) w)).
  { rewrite put_work_store, Hc, Hl. now apply lookup_update_id. }
  repeat split.
  - rewrite put_work_outcome. cbv zeta. now rewrite Hc, Hl, Hv.
  - rewrite put_work_outcome. cbv zeta. now rewrite Hc, Hl, Hv.
  - exact Hs.
  - intros Ht Hd. unfold status_of.
    rewrite (put_work_outcome req (store (handle PutWork req l))). cbv zeta.
    rewrite Hc, Hs.
    assert (V : valid_work
                  (apply_update (body_title req) (body_description req) w) = true).
    { unfold valid_work, apply_update. simpl.
      destruct (body_title req); try discriminate.
      destruct (body_description req); try discriminate.
      simpl in *. now rewrite Ht, Hd. }
    now rewrite V.
Qed.

Lemma put_work_500_has_written_witness :
  let stale := mkWork id_a (JString EmptyString) (JString "Other") 0 in
  let req := mkRequest id_a (JString "Work 2") (JString "Another") in
  response (handle PutWork req [stale]) = Some (500, JMessage "unable to update work") /\
  status_of (handle PutWork req (store (handle PutWork req [stale]))) = Some 200.
Proof.
  cbv zeta.
  destruct (put_work_500_has_written
              [mkWork id_a (JString EmptyString) (JString "Other") 0]
              (mkRequest id_a (JString "Work 2") (JString "Another"))
              id_a (mkWork id_a (JString EmptyString) (JString "Other") 0)
              eq_refl eq_refl eq_refl) as (H1 & _ & _ & H2).
  split; [exact H1 | exact (H2 eq_refl eq_refl)].
Defined.

(** ** The identifier a POST assigns *)

Lemma hex_digit_inj (a b : N) :
  (a < 16)%N -> (b < 16)%N -> hex_digit a = hex_digit b -> a = b.
Proof.
  intros Ha Hb H. apply N2Nat.inj. unfold hex_digit in H.
  assert (Ha' : N.to_nat a < 16) by lia.
  assert (Hb' : N.to_nat b < 16) by lia.
  revert H. generalize (N.to_nat a) (N.to_nat b) Ha' Hb'. clear.
  intros x y Hx Hy.
  do 16 (destruct x as [|x];
         [do 16 (destruct y as [|y]; [simpl; congruence|]); lia|]).
  lia.
Qed.

Lemma hex_digit_is_hex (d : N) :
  (d < 16)%N ->
  ObjectId.is_hex (hex_digit d) = true /\
  ObjectId.lower (hex_digit d) = hex_digit d.
Proof.
  intros Hd. unfold hex_digit.
  assert (Hd' : N.to_nat d < 16) by lia.
  revert Hd'. generalize (N.to_nat d). clear. intros x Hx.
  do 16 (destruct x as [|x]; [split; reflexivity|]).
  lia.
Qed.

Lemma hex_length (k : nat) (n : N) : String.length (hex k n) = k.
Proof. induction k; simpl; congruence. Qed.

Lemma hex_all_hex (k : nat) (n : N) :
  ObjectId.all_hex (hex k n) = true /\ ObjectId.lowercase (hex k n) = hex k n.
Proof.
  induction k as [|k [IH1 IH2]]; simpl; [split; reflexivity|].
  destruct (hex_digit_is_hex ((n / 16 ^ N.of_nat k) mod 16)) as [H1 H2].
  { apply N.mod_lt. discriminate. }
  rewrite H1, H2, IH1, IH2. split; reflexivity.
Qed.

(** Equal digits, equal values, up to the number of digits. *)
Lemma hex_inj (k : nat) (a b : N) :
  hex k a = hex k b -> (a mod 16 ^ N.of_nat k = b mod 16 ^ N.of_nat k)%N.
Proof.
  induction k as [|k IH]; intros H.
  - simpl. now rewrite !N.mod_1_r.
  - simpl in H. injection H as Hd Ht.
    apply hex_digit_inj in Hd; try (apply N.mod_lt; discriminate).
    specialize (IH Ht).
    rewrite Nat2N.inj_succ, N.pow_succ_r', (N.mul_comm 16).
    rewrite !N.Div0.mod_mul_r. now rewrite IH, Hd.
Qed.

Lemma width_bound (n : N) : (n < 16 ^ N.of_nat (width n))%N.
Proof.
  apply N.lt_le_trans with (2 ^ N.size n)%N; [apply N.size_gt|].
  change 16%N with (2 ^ 4)%N. rewrite <- N.pow_mul_r.
  apply N.pow_le_mono_r; [discriminate|].
  unfold width.
  assert (H : (N.size n <= 4 * ((N.size n + 3) / 4))%N).
  { pose proof (N.Div0.div_mod (N.size n + 3) 4) as E.
    pose proof (N.mod_lt (N.size n + 3) 4 ltac:(discriminate)) as L. lia. }
  lia.
Qed.

(** No identifier is handed out for two values of the counter. *)
Lemma generate_inj (a b : N) : generate a = generate b -> a = b.
Proof.
  unfold generate. intros H.
  assert (W : width a = width b).
  { rewrite <- (hex_length (width a) a), <- (hex_length (width b) b).
    now rewrite H. }
  rewrite W in H. apply hex_inj in H.
  pose proof (width_bound a) as Ba. pose proof (width_bound b) as Bb.
  rewrite W in Ba. rewrite !N.mod_small in H; assumption.
Qed.

Lemma generate_length (n : N) : 24 <= String.length (generate n).
Proof. unfold generate. rewrite hex_length. unfold width. lia. Qed.

(** Below 2^96 an identifier has the 24 digits of an ObjectId and is the
    string form of itself, so that the document can be addressed by it. *)
Lemma generate_cast (n : N) :
  (n < 2 ^ 96)%N -> ObjectId.cast (generate n) = Some (generate n).
Proof.
  intros Hn.
  assert (W : width n = 24).
  { unfold width.
    assert (N.size n <= 96)%N;
      [|assert ((N.size n + 3) / 4 <= 99 / 4)%N
          by (apply N.Div0.div_le_mono; lia);
        change (99 / 4)%N with 24%N in *; lia].
    destruct (N.le_gt_cases (N.size n) 96) as [H | H]; [exact H|].
    exfalso. pose proof (N.size_le n) as L.
    assert (P : (2 ^ 97 <= 2 ^ N.size n)%N)
      by (apply N.pow_le_mono_r; [discriminate | lia]).
    assert (Q : (N.succ_double n < 2 ^ 97)%N).
    { rewrite N.succ_double_spec.
      change (2 ^ 97)%N with (2 * 2 ^ 96)%N. lia. }
    lia. }
  unfold ObjectId.cast, ObjectId.isValid, generate. rewrite W.
  destruct (hex_all_hex 24 n) as [H1 H2].
  rewrite hex_length, H1, H2. reflexivity.
Qed.

(** Every identifier in the collection was taken from the counter at an
    earlier value.  No handler writes an [_id], so this is kept. *)
Lemma call_assigned (c : Call) (req : Request) (s : Server) :
  (forall i, In i (map _id (collection s)) ->
     exists k, (k < counter s)%N /\ i = generate k) ->
  forall i, In i (map _id (collection (snd (call c req s)))) ->
    exists k, (k < counter (snd (call c req s)))%N /\ i = generate k.
Proof.
  intros Hs i Hi. simpl in Hi. apply handle_ids in Hi.
  destruct Hi as [Hi | E].
  - destruct (Hs i Hi) as (k & Hk & ->). exists k. split; [|reflexivity].
    destruct c; simpl; lia.
  - destruct c; try discriminate E. simpl in E. injection E as <-.
    exists (counter s). simpl. split; [lia | reflexivity].
Qed.

Lemma calls_assigned (cs : list (Call * Request)) :
  forall s,
    (forall i, In i (map _id (collection s)) ->
       exists k, (k < counter s)%N /\ i = generate k) ->
    forall i, In i (map _id (collection (calls cs s))) ->
      exists k, (k < counter (calls cs s))%N /\ i = generate k.
Proof.
  induction cs as [|[c req] cs IH]; simpl; intros s Hs; [exact Hs|].
  apply IH. now apply call_assigned.
Qed.

(** C5, as the code has it.  In a process started on an empty collection,
    whatever requests it has served, a POST whose body carries [title] and
    [description] as strings of positive length answers 200 with the new
    document in the body and stores it as the last of the collection.  The
    document carries the identifier assigned to it by this POST: one that is
    not empty, that no stored document carries and that was never assigned
    before. *)
Theorem post_work_assigns_fresh_id
    (n0 : N) (cs : list (Call * Request)) (req : Request) (t d : string) :
  body_title req = JString t -> t <> EmptyString ->
  body_description req = JString d -> d <> EmptyString ->
  let s := calls cs (boot n0) in
  let o := fst (call CallPost req s) in
  let w := mkWork (generate (counter s)) (JString t) (JString d) 0 in
  response o = Some (200, JCreated "new work created" w) /\
  rejection o = None /\
  store o = (collection s ++ [w])%list /\
  lookup (_id w) (store o) = Some w /\
  _id w <> EmptyString /\
  lookup (_id w) (collection s) = None /\
  (forall k, (k < counter s)%N -> generate k <> _id w).
Proof.
  intros Ht Hte Hd Hde. cbv zeta.
  set (s := calls cs (boot n0)).
  assert (Hnew : forall k, (k < counter s)%N -> generate k <> generate (counter s)).
  { intros k Hk E. apply generate_inj in E. lia. }
  assert (Hfree : lookup (generate (counter s)) (collection s) = None).
  { apply lookup_None_iff. intros Hin.
    destruct (calls_assigned cs (boot n0)
                ltac:(simpl; intros ? []) _ Hin) as (k & Hk & E).
    exact (Hnew k Hk (eq_sym E)). }
  assert (V : valid_work (new_Work (generate (counter s))
                            (body_title req) (body_description req)) = true).
  { unfold valid_work. simpl. rewrite Ht, Hd. simpl.
    apply String.eqb_neq in Hte, Hde. now rewrite Hte, Hde. }
  simpl fst. unfold endpoint_of.
  rewrite post_work_outcome. cbv zeta. rewrite V, Hfree.
  unfold new_Work. rewrite Ht, Hd. simpl.
  repeat split.
  - now apply lookup_app_new.
  - intros E. pose proof (generate_length (counter s)) as L.
    rewrite E in L. simpl in L. lia.
  - exact Hfree.
  - exact Hnew.
Qed.

Lemma post_work_assigns_fresh_id_witness :
  response
    (fst (call CallPost (with_body (JString "Work 2") (JString "Other"))
            (calls [ (CallPost, with_body (JString "Work 1") (JString "Work Description"));
                     (CallPost, with_body JNull (JString "Other")) ]
                   (boot 0))))
    = Some (200, JCreated "new work created"
                   (mkWork "000000000000000000000002"
                           (JString "Work 2") (JString "Other") 0)).
Proof.
  refine (proj1 (post_work_assigns_fresh_id 0
            [ (CallPost, with_body (JString "Work 1") (JString "Work Description"));
              (CallPost, with_body JNull (JString "Other")) ]
            (with_body (JString "Work 2") (JString "Other"))
            "Work 2" "Other" eq_refl _ eq_refl _));
    discriminate.
Defined.

(** ** What the client observes *)

(** C8, as the code has it.  Creation is never answered 201.  When the JSON
    body parser has accepted the body, the request reaches its handler and
    the client observes the status the handler sends: 200, 404 or 500, and
    exactly 200 when the request succeeds. *)
Theorem app_statuses (e : Endpoint) (id : string) (b : RawBody) (l : list Work) :
  let a := app e id b l in
  observed a <> Some 201 /\
  (forall t d,
     express_json b = inr (t, d) ->
     a = Routed (handle e (mkRequest id t d) l) /\
     (forall c, observed a = Some c -> c = 200 \/ c = 404 \/ c = 500) /\
     (succeeds e (mkRequest id t d) l = true -> observed a = Some 200)).
Proof.
  cbv zeta. unfold app. split.
  - unfold express_json.
    destruct (json_limit <? body_bytes b)%N; [discriminate|].
    destruct (body_text b) as [t d|]; [|discriminate].
    simpl. apply (statuses_200_404_500 e (mkRequest id t d) l).
  - intros t d ->. simpl.
    destruct (statuses_200_404_500 e (mkRequest id t d) l) as (H1 & _ & H3).
    repeat split; assumption.
Qed.

Lemma app_statuses_witness :
  observed (app PutWork id_a
              (mkRawBody 45 (ObjectText (JString "Work 2") (JString "Other")))
              [work_a])
    = Some 200.
Proof.
  destruct (proj2 (app_statuses PutWork id_a
                     (mkRawBody 45 (ObjectText (JString "Work 2") (JString "Other")))
                     [work_a])
              (JString "Work 2") (JString "Other") eq_refl) as (_ & _ & H).
  exact (H eq_refl).
Defined.

(** C8, as stated, fails on a request whose body the parser refuses: text
    that is not JSON is answered 400 and a body over 100kb is answered 413,
    whichever the endpoint, and no handler is called. *)
Lemma app_body_refused :
  let small := mkRawBody 15 MalformedText in
  let large := mkRawBody 102401
                 (ObjectText (JString "Work 1") (JString "Work Description")) in
  app (PostWork id_a) EmptyString small [] = Refused 400 /\
  observed (app (PostWork id_a) EmptyString small []) = Some 400 /\
  app (PostWork id_a) EmptyString large [] = Refused 413 /\
  observed (app (PostWork id_a) EmptyString large []) = Some 413 /\
  observed (app PutWork id_a small [work_a]) = Some 400 /\
  observed (app PutWork id_a large [work_a]) = Some 413.
Proof.
  cbv zeta. repeat split.
Qed.
